(** * faimed3d: EfficientNet and DeepLabV3+ in three dimensions

    A shallow embedding of the model-construction code of the repository
    ([models.efficientnet] and [models.deeplab]) and the properties of it
    that are stated in the specification.

    Conventions.
    - Python [int] is [Z]; a Python [float] is idealised as a rational [Q]
      (no rounding, no infinities, no NaN).
    - A Python exception is a value of [Py.exn]; code that can raise
      returns [Py.result].
    - A tensor of the framework is a symbolic value: its shape together
      with the expression that computed it.  The framework's operations
      check shapes the way the framework documents them and raise
      [RuntimeError] on a mismatch. *)

From Stdlib Require Import String ZArith QArith Qround List Bool Lia Lqa.
Import ListNotations.
Open Scope Z_scope.
Set Warnings "-register-all".

(* ================================================================== *)
(** * Python values and exceptions *)
(* ================================================================== *)

Module Py.

Inductive exn : Type :=
| AssertionError (msg : string)
| NameError (name : string)
| ZeroDivisionError
| IndexError
| TypeError
| ValueError
| AttributeError
| RuntimeError.

Inductive result (A : Type) : Type :=
| OK (a : A)
| Raise (e : exn).
Arguments OK {A} a.
Arguments Raise {A} e.

Definition bind {A B} (r : result A) (k : A -> result B) : result B :=
  match r with
  | OK a => k a
  | Raise e => Raise e
  end.

(** [int(x)] of a float: truncation toward zero. *)
Definition int (q : Q) : Z :=
  if Qle_bool 0 q then Qfloor q else Qceiling q.

(** [math.ceil(x)]. *)
Definition ceil (q : Q) : Z := Qceiling q.

(** [a // b] on integers: the floor quotient, [ZeroDivisionError] for
    [b = 0].  [Z.div] rounds toward minus infinity for a positive
    divisor and has the remainder of the divisor's sign, as Python. *)
Definition floordiv (a b : Z) : result Z :=
  if b =? 0 then Raise ZeroDivisionError else OK (a / b).

(** [q1 < q2] on floats, as a boolean. *)
Definition Qlt_bool (a b : Q) : bool := negb (Qle_bool b a).

(** An argument that is an [int] or a tuple of ints (kernel sizes,
    strides, paddings). *)
Inductive int_or_tuple : Type :=
| Int (z : Z)
| Tuple (l : list Z).

(** [v == 1] for such an argument: a tuple is never equal to [1]. *)
Definition eq_int (v : int_or_tuple) (z : Z) : bool :=
  match v with
  | Int a => a =? z
  | Tuple _ => false
  end.

(** [l[i]] for [i >= 0]. *)
Definition index {A} (l : list A) (i : nat) : result A :=
  match nth_error l i with
  | Some a => OK a
  | None => Raise IndexError
  end.

(** A list comprehension whose body can raise. *)
Fixpoint mapM {A B} (f : A -> result B) (l : list A) : result (list B) :=
  match l with
  | [] => OK []
  | a :: l' =>
      match f a with
      | OK b => match mapM f l' with
                | OK bs => OK (b :: bs)
                | Raise e => Raise e
                end
      | Raise e => Raise e
      end
  end.

(** [l[-1]]. *)
Definition last {A} (l : list A) : result A :=
  match rev l with
  | a :: _ => OK a
  | [] => Raise IndexError
  end.

End Py.

Import Py.

Declare Scope py_scope.
Delimit Scope py_scope with py.
Notation "x <- c1 ;; c2" := (Py.bind c1 (fun x => c2))
  (at level 61, c1 at next level, right associativity) : py_scope.

(* ================================================================== *)
(** * ConvLayerDynamicPadding.calculate_padding *)
(* ================================================================== *)

(** [[
    def calculate_padding(self, ks):
        if ks % 2 == 0: return ks // 2, (ks-1) //2
        else: return ks //2, ks //2
    ]] *)
Definition calculate_padding (ks : Z) : Z * Z :=
  if ks mod 2 =? 0 then (ks / 2, (ks - 1) / 2)
  else (ks / 2, ks / 2).

(* ================================================================== *)
(** * EfficientNet.get_n_channels *)
(* ================================================================== *)

(** [[
    def get_n_channels(self, n_channels, width_coefficient, depth_divisor, min_depth):
        if not width_coefficient: return filters
        n_channels *= width_coefficient
        min_depth = min_depth or depth_divisor
        new_channels = max(min_depth, int(n_channels + depth_divisor / 2) // depth_divisor * depth_divisor)
        if new_channels < 0.9 * n_channels:
            new_channels += depth_divisor
        return int(new_channels)
    ]]
    [n_channels] and [depth_divisor] are integers (the block table and the
    default [8]); [width_coefficient] is a float; [min_depth] is [None] or
    an integer.  The name [filters] is bound nowhere, so the first line
    raises [NameError] when it is reached. *)
Definition get_n_channels (n_channels : Z) (width_coefficient : Q)
    (depth_divisor : Z) (min_depth : option Z) : result Z :=
  if Qeq_bool width_coefficient 0 then Raise (NameError "filters") else
  let n_channels := (inject_Z n_channels * width_coefficient)%Q in
  let min_depth :=
    match min_depth with
    | None => depth_divisor
    | Some m => if m =? 0 then depth_divisor else m
    end in
  (q <- floordiv (int (n_channels + inject_Z depth_divisor / 2)%Q) depth_divisor ;;
   let new_channels := Z.max min_depth (q * depth_divisor) in
   let new_channels :=
     if Qlt_bool (inject_Z new_channels) ((9 # 10) * n_channels)%Q
     then new_channels + depth_divisor
     else new_channels in
   OK new_channels)%py.

(* ================================================================== *)
(** * The framework: shapes, layers and symbolic tensors *)
(* ================================================================== *)

(** The autodiff framework and its layer library are external to the
    repository.  They are modelled by what their documentation fixes: the
    shape every operation returns (or the [RuntimeError] it raises), and
    an expression that records which operation produced a tensor. *)
Module Torch.

Definition shape := list Z.

Inductive NormType : Type :=
| Batch | BatchZero | Weight | Spectral | Instance | InstanceZero.

Inductive activation : Type := ReLU | SiLU.

Inductive interp_mode : Type := nearest | trilinear.

(** The layers of the framework that the repository instantiates.  The
    dimension-generic constructors carry the number of spatial
    dimensions, so [Conv3d] is [ConvNd 3], and so on. *)
Inductive prim : Type :=
| ConvNd (ndim : nat) (ni nf : Z)
         (kernel_size stride padding dilation : list Z)
         (groups : Z) (bias : bool)
| BatchNormNd (ndim : nat) (nf : Z)
| InstanceNormNd (ndim : nat) (nf : Z)
| Act (a : activation)
| ConstantPadNd (ndim : nat) (padding : list Z) (value : Q)
| AdaptiveAvgPoolNd (ndim : nat) (output_size : Z)
| Flatten
| Dropout (p : Q)
| Linear (in_features out_features : Z).

(** [nn.Dropout(p)] checks its argument when it is constructed. *)
Definition Dropout_init (p : Q) : result prim :=
  if Qle_bool 0 p && Qle_bool p 1 then OK (Dropout p)
  else Raise ValueError.

Definition Conv3d := ConvNd 3.
Definition ConstantPad3d := ConstantPadNd 3.
Definition AdaptiveAvgPool3d := AdaptiveAvgPoolNd 3.

(** ** Shapes *)

(** One spatial axis of a convolution:
    [floor((i + 2p - d(k-1) - 1) / s) + 1]. *)
Definition conv_out (i k s p d : Z) : Z :=
  (i + 2 * p - d * (k - 1) - 1) / s + 1.

Definition conv_axis_ok (i k s p d : Z) : bool :=
  (0 <? s) && (0 <? k) && (0 <? d) && (0 <=? p)
  && (d * (k - 1) + 1 <=? i + 2 * p).

Fixpoint conv_spatial (i k s p d : list Z) : result (list Z) :=
  match i, k, s, p, d with
  | [], [], [], [], [] => OK []
  | i0 :: i, k0 :: k, s0 :: s, p0 :: p, d0 :: d =>
      if conv_axis_ok i0 k0 s0 p0 d0
      then (rest <- conv_spatial i k s p d ;;
            OK (conv_out i0 k0 s0 p0 d0 :: rest))%py
      else Raise RuntimeError
  | _, _, _, _, _ => Raise RuntimeError
  end.

(** [F.pad]: the padding list is read in pairs from the last axis
    backwards; [rs] is the shape reversed. *)
Fixpoint pad_rev (rs : list Z) (padding : list Z) : result (list Z) :=
  match padding with
  | [] => OK rs
  | l :: r :: padding' =>
      match rs with
      | x :: rs' =>
          if 0 <=? x + l + r
          then (rest <- pad_rev rs' padding' ;; OK (x + l + r :: rest))%py
          else Raise RuntimeError
      | [] => Raise RuntimeError
      end
  | [_] => Raise RuntimeError
  end.

Definition pad_shape (s : shape) (padding : list Z) : result shape :=
  (r <- pad_rev (rev s) padding ;; OK (rev r))%py.

Definition all_positive (l : list Z) : bool := forallb (fun z => 0 <? z) l.

Definition prod (l : list Z) : Z := fold_right Z.mul 1 l.

(** The shape a layer returns for an input of shape [s] (batched
    inputs: [batch; channels; spatial...]). *)
Definition prim_shape (p : prim) (s : shape) : result shape :=
  match p with
  | ConvNd ndim ni nf ks stride padding dilation groups _ =>
      match s with
      | b :: c :: spatial =>
          if (length spatial =? ndim)%nat && (c =? ni) && (0 <? groups)
             && (ni mod groups =? 0) && (nf mod groups =? 0)
          then (out <- conv_spatial spatial ks stride padding dilation ;;
                OK (b :: nf :: out))%py
          else Raise RuntimeError
      | _ => Raise RuntimeError
      end
  | BatchNormNd ndim nf | InstanceNormNd ndim nf =>
      match s with
      | b :: c :: spatial =>
          if (length spatial =? ndim)%nat && (c =? nf) then OK s
          else Raise RuntimeError
      | _ => Raise RuntimeError
      end
  | Act _ => OK s
  | Dropout _ => OK s
  | ConstantPadNd _ padding _ => pad_shape s padding
  | AdaptiveAvgPoolNd ndim out =>
      match s with
      | b :: c :: spatial =>
          if (length spatial =? ndim)%nat && all_positive spatial
          then OK (b :: c :: repeat out ndim)
          else Raise RuntimeError
      | _ => Raise RuntimeError
      end
  | Flatten =>
      match s with
      | b :: rest => OK [b; prod rest]
      | [] => Raise RuntimeError
      end
  | Linear n_in n_out =>
      match rev s with
      | c :: rs => if c =? n_in then OK (rev (n_out :: rs))
                   else Raise RuntimeError
      | [] => Raise RuntimeError
      end
  end.

(** Broadcasting of two shapes, aligned at the last axis. *)
Fixpoint broadcast_rev (a b : list Z) : result (list Z) :=
  match a, b with
  | [], _ => OK b
  | _, [] => OK a
  | x :: a', y :: b' =>
      if x =? y then (r <- broadcast_rev a' b' ;; OK (x :: r))%py
      else if x =? 1 then (r <- broadcast_rev a' b' ;; OK (y :: r))%py
      else if y =? 1 then (r <- broadcast_rev a' b' ;; OK (x :: r))%py
      else Raise RuntimeError
  end.

Definition broadcast (a b : shape) : result shape :=
  (r <- broadcast_rev (rev a) (rev b) ;; OK (rev r))%py.

(** [x.shape[-3:]]. *)
Definition last3 (s : shape) : list Z := skipn (length s - 3) s.

Definition list_eqb (a b : list Z) : bool :=
  if list_eq_dec Z.eq_dec a b then true else false.

(** [F.interpolate(x, size=size, mode=mode)] on [batch; channels;
    spatial...]: trilinear needs three spatial axes. *)
Definition interpolate_shape (s : shape) (size : list Z)
    (mode : interp_mode) : result shape :=
  match s with
  | b :: c :: spatial =>
      if (length spatial =? length size)%nat
         && all_positive spatial && all_positive size
         && match mode with
            | trilinear => (length size =? 3)%nat
            | nearest => true
            end
      then OK (b :: c :: size)
      else Raise RuntimeError
  | _ => Raise RuntimeError
  end.

(** [torch.cat(ts, dim=1)]: equal shapes apart from axis 1, whose
    sizes add up. *)
Fixpoint cat1_shape (first : shape) (rest : list shape) : result shape :=
  match rest with
  | [] => OK first
  | s :: rest' =>
      match first, s with
      | b :: c :: sp, b' :: c' :: sp' =>
          if (b =? b') && list_eqb sp sp'
          then cat1_shape (b :: c + c' :: sp) rest'
          else Raise RuntimeError
      | _, _ => Raise RuntimeError
      end
  end.

(** ** Symbolic tensors *)

Inductive unop : Type :=
| ULayer (p : prim)
| UOpaque (name : string)
| USigmoid
| UInterpolate (size : list Z) (mode : interp_mode).

Inductive expr : Type :=
| EInput (name : string)
| ERand (draw : nat)
| EAddScalar (q : Q) (e : expr)
| EDivScalar (e : expr) (q : Q)
| EFloor (e : expr)
| EMul (sa : shape) (a : expr) (sb : shape) (b : expr)
| EAdd (sa : shape) (a : expr) (sb : shape) (b : expr)
| EUn (o : unop) (e : expr)
| ECat (dim : Z) (es : list expr).

Record tensor : Type := { shape_of : shape; data : expr }.

(** ** The state of a run *)

(** A module of the encoder is named by its path of child indices.
    [hooks] are the modules a forward hook is registered on; [stored]
    holds what each hook stored last. *)
Definition path := list nat.

Record world : Type := {
  rng : nat;
  hooks : list path;
  stored : list (path * tensor)
}.

Definition M (A : Type) : Type := world -> result (A * world).

Definition ret {A} (a : A) : M A := fun w => OK (a, w).

Definition mbind {A B} (m : M A) (k : A -> M B) : M B :=
  fun w => match m w with
           | OK (a, w') => k a w'
           | Raise e => Raise e
           end.

Definition lift {A} (r : result A) : M A :=
  fun w => match r with
           | OK a => OK (a, w)
           | Raise e => Raise e
           end.

(** ** Operations on tensors *)

(** [x.size(i)]. *)
Definition size (x : tensor) (i : nat) : result Z := index (shape_of x) i.

(** [torch.rand(size)]: a fresh draw, uniform on [[0, 1)]. *)
Definition rand (sz : list Z) : M tensor :=
  fun w => OK ({| shape_of := sz; data := ERand (rng w) |},
               {| rng := S (rng w); hooks := hooks w; stored := stored w |}).

Definition add_scalar (q : Q) (x : tensor) : tensor :=
  {| shape_of := shape_of x; data := EAddScalar q (data x) |}.

Definition div_scalar (x : tensor) (q : Q) : tensor :=
  {| shape_of := shape_of x; data := EDivScalar (data x) q |}.

Definition floor_ (x : tensor) : tensor :=
  {| shape_of := shape_of x; data := EFloor (data x) |}.

Definition sigmoid (x : tensor) : tensor :=
  {| shape_of := shape_of x; data := EUn USigmoid (data x) |}.

Definition mul (a b : tensor) : result tensor :=
  (s <- broadcast (shape_of a) (shape_of b) ;;
   OK {| shape_of := s;
         data := EMul (shape_of a) (data a) (shape_of b) (data b) |})%py.

Definition add (a b : tensor) : result tensor :=
  (s <- broadcast (shape_of a) (shape_of b) ;;
   OK {| shape_of := s;
         data := EAdd (shape_of a) (data a) (shape_of b) (data b) |})%py.

Definition call_prim (p : prim) (x : tensor) : result tensor :=
  (s <- prim_shape p (shape_of x) ;;
   OK {| shape_of := s; data := EUn (ULayer p) (data x) |})%py.

(** [F.adaptive_avg_pool3d(x, output_size)]. *)
Definition adaptive_avg_pool3d (x : tensor) (output_size : Z)
  : result tensor :=
  call_prim (AdaptiveAvgPool3d output_size) x.

Definition interpolate (x : tensor) (size : list Z) (mode : interp_mode)
  : result tensor :=
  (s <- interpolate_shape (shape_of x) size mode ;;
   OK {| shape_of := s; data := EUn (UInterpolate size mode) (data x) |})%py.

(** [torch.cat(ts, dim=1)]. *)
Definition cat1 (ts : list tensor) : result tensor :=
  match ts with
  | [] => Raise RuntimeError
  | t :: ts' =>
      (s <- cat1_shape (shape_of t) (map shape_of ts') ;;
       OK {| shape_of := s; data := ECat 1 (map data ts) |})%py
  end.

(** ** Modules composed of layers *)

(** [Layer]: a layer of the framework.  [Opaque]: a module of the
    caller (a residual block of an encoder, say), known by the shape
    it returns.  [Sequential]: [nn.Sequential]; iterating over it
    yields its children. *)
Inductive nnModule : Type :=
| Layer (p : prim)
| Opaque (name : string) (out_shape : shape -> option shape)
| Sequential (children : list nnModule).

Definition call_opaque (name : string) (f : shape -> option shape)
    (x : tensor) : result tensor :=
  match f (shape_of x) with
  | Some s => OK {| shape_of := s; data := EUn (UOpaque name) (data x) |}
  | None => Raise RuntimeError
  end.

(** [m(x)]. *)
Fixpoint call (m : nnModule) (x : tensor) : result tensor :=
  match m with
  | Layer p => call_prim p x
  | Opaque name f => call_opaque name f x
  | Sequential ms =>
      (fix go (ms : list nnModule) (x : tensor) : result tensor :=
         match ms with
         | [] => OK x
         | m' :: ms' => (y <- call m' x ;; go ms' y)%py
         end) ms x
  end.

(** [for m in module]: only a container is iterable. *)
Definition iterate (m : nnModule) : result (list nnModule) :=
  match m with
  | Sequential ms => OK ms
  | _ => Raise TypeError
  end.

End Torch.

Import Torch.

Declare Scope m_scope.
Delimit Scope m_scope with M.
Notation "x <- c1 ;; c2" := (Torch.mbind c1 (fun x => c2))
  (at level 61, c1 at next level, right associativity) : m_scope.

(* ================================================================== *)
(** * The training framework's layer helper *)
(* ================================================================== *)

(** [ConvLayer] of the training framework: a convolution followed by an
    activation and a normalisation layer, in the order [bn_1st] asks for.
    Transposed convolutions, initialisation and [xtra] layers are never
    used by the repository and are left out. *)
Module Fastai.

(** The keyword arguments handed on to the convolution. *)
Record conv_kwargs : Type := { dilation : int_or_tuple; groups : Z }.

Definition no_kwargs : conv_kwargs := {| dilation := Int 1; groups := 1 |}.

(** [defaults.activation]. *)
Definition defaults_activation : activation := ReLU.

Definition ntuple (n : nat) (v : int_or_tuple) : list Z :=
  match v with
  | Int z => repeat z n
  | Tuple l => l
  end.

Definition is_bn (norm_type : option NormType) : bool :=
  match norm_type with
  | Some Batch | Some BatchZero => true
  | _ => false
  end.

Definition is_inn (norm_type : option NormType) : bool :=
  match norm_type with
  | Some Instance | Some InstanceZero => true
  | _ => false
  end.

(** The layers that follow the convolution:
    [[
    act_bn = []
    if act is not None: act_bn.append(act)
    if bn: act_bn.append(BatchNorm(nf, norm_type=norm_type, ndim=ndim))
    if inn: act_bn.append(InstanceNorm(nf, norm_type=norm_type, ndim=ndim))
    if bn_1st: act_bn.reverse()
    ]] *)
Definition act_bn (ndim : nat) (nf : Z) (norm_type : option NormType)
    (bn_1st : bool) (act_cls : option activation) : list nnModule :=
  let l :=
    match act_cls with Some a => [Layer (Act a)] | None => [] end
    ++ (if is_bn norm_type then [Layer (BatchNormNd ndim nf)] else [])
    ++ (if is_inn norm_type then [Layer (InstanceNormNd ndim nf)] else []) in
  if bn_1st then rev l else l.

(** [if bias is None: bias = not (bn or inn)]. *)
Definition conv_bias (bias : option bool) (norm_type : option NormType)
  : bool :=
  match bias with
  | Some b => b
  | None => negb (is_bn norm_type || is_inn norm_type)
  end.

Definition ConvLayer (ni nf : Z) (ks stride : int_or_tuple)
    (padding : option int_or_tuple) (bias : option bool) (ndim : nat)
    (norm_type : option NormType) (bn_1st : bool)
    (act_cls : option activation) (kwargs : conv_kwargs)
  : result nnModule :=
  (padding <- match padding with
              | Some p => OK p
              | None => match ks with
                        | Int k => OK (Int ((k - 1) / 2))
                        | Tuple _ => Raise TypeError
                        end
              end ;;
   let conv := ConvNd ndim ni nf (ntuple ndim ks) (ntuple ndim stride)
                 (ntuple ndim padding) (ntuple ndim (dilation kwargs))
                 (groups kwargs) (conv_bias bias norm_type) in
   OK (Sequential (Layer conv :: act_bn ndim nf norm_type bn_1st act_cls)))%py.

End Fastai.

Import Fastai.

(* ================================================================== *)
(** * ConvLayerDynamicPadding *)
(* ================================================================== *)

(** [[
    if isinstance(ks, int): ks = (ks, )*ndim
    padding = [pad for _ks in ks for pad in self.calculate_padding(_ks)]
    conv_layer = ConvLayer(ni, nf, ks, stride, 0, bias, ndim, norm_type, bn_1st, act_cls, ...)
    super().__init__(nn.ConstantPad3d(padding[::-1], 0.), *[l for l in conv_layer])
    ]] *)
Definition ConvLayerDynamicPadding (ni nf : Z) (ks stride : int_or_tuple)
    (bias : option bool) (ndim : nat) (norm_type : option NormType)
    (bn_1st : bool) (act_cls : option activation) (kwargs : conv_kwargs)
  : result nnModule :=
  let ks := match ks with
            | Int k => repeat k ndim
            | Tuple l => l
            end in
  let padding :=
    flat_map (fun _ks => let '(a, b) := calculate_padding _ks in [a; b]) ks in
  (conv_layer <- ConvLayer ni nf (Tuple ks) stride (Some (Int 0)) bias ndim
                   norm_type bn_1st act_cls kwargs ;;
   ls <- iterate conv_layer ;;
   OK (Sequential (Layer (ConstantPad3d (rev padding) 0) :: ls)))%py.

(* ================================================================== *)
(** * DropConnect *)
(* ================================================================== *)

Module DropConnect.

Record t : Type := { keep_prob : Q; training : bool }.

(** [[
    def __init__(self, p):
        assert 0 <= p <= 1, 'p must be in range of [0,1]'
        self.keep_prob = 1 - p
        super().__init__()
    ]]
    A module is in training mode once it is constructed. *)
Definition init (p : Q) : result t :=
  if Qle_bool 0 p && Qle_bool p 1
  then OK {| keep_prob := 1 - p; training := true |}
  else Raise (AssertionError "p must be in range of [0,1]").

(** [module.train(mode)]; [module.eval()] is [train false]. *)
Definition train (mode : bool) (self : t) : t :=
  {| keep_prob := keep_prob self; training := mode |}.

(** [[
    def forward(self, x):
        if not self.training: return x
        batch_size = x.size(0)
        random_tensor = self.keep_prob + torch.rand([batch_size, 1, 1, 1, 1], ...)
        return x / self.keep_prob * random_tensor.floor_()
    ]] *)
Definition forward (self : t) (x : tensor) : M tensor :=
  if negb (training self) then ret x else
  (batch_size <- lift (size x 0) ;;
   r <- rand [batch_size; 1; 1; 1; 1] ;;
   let random_tensor := add_scalar (keep_prob self) r in
   lift (mul (div_scalar x (keep_prob self)) (floor_ random_tensor)))%M.

End DropConnect.

(* ================================================================== *)
(** * MBConvBlock *)
(* ================================================================== *)

Module MBConvBlock.

Record t : Type := {
  n_inp : Z;
  n_out : Z;
  kernel_size : int_or_tuple;
  stride : int_or_tuple;
  se_ratio : option Q;
  id_skip : bool;
  expand_ratio : Z;
  drop_connect_rate : Q;
  act_cls : option activation;
  norm_type : option NormType;
  expand_conv : option nnModule;
  depthwise_conv : nnModule;
  has_se : bool;
  squeeze_expand : option nnModule;
  project_conv : nnModule;
  drop_conncet : DropConnect.t
}.

(** [(se_ratio is not None) and (0 < se_ratio <= 1)]. *)
Definition se_active (se_ratio : option Q) : bool :=
  match se_ratio with
  | None => false
  | Some r => Qlt_bool 0 r && Qle_bool r 1
  end.

(** [max(1, int(n_inp * se_ratio))]. *)
Definition num_squeezed_channels (n_inp : Z) (r : Q) : Z :=
  Z.max 1 (int (inject_Z n_inp * r)%Q).

Definition init (n_inp n_out : Z) (kernel_size stride : int_or_tuple)
    (se_ratio : option Q) (id_skip : bool) (expand_ratio : Z)
    (drop_connect_rate : Q) (act_cls : option activation)
    (norm_type : option NormType) : result t :=
  let n_intermed := n_inp * expand_ratio in
  (expand_conv <-
     (if negb (expand_ratio =? 1)
      then (c <- ConvLayerDynamicPadding n_inp n_intermed (Int 1) (Int 1)
                   None 3 norm_type true act_cls no_kwargs ;;
            OK (Some c))
      else OK None) ;;
   depthwise_conv <-
     ConvLayerDynamicPadding n_intermed n_intermed kernel_size stride
       None 3 norm_type true act_cls
       {| dilation := Int 1; groups := n_intermed |} ;;
   let has_se := se_active se_ratio in
   squeeze_expand <-
     match se_ratio with
     | Some r =>
         if has_se
         then
           let num_squeezed_channels := num_squeezed_channels n_inp r in
           (c1 <- ConvLayerDynamicPadding n_intermed num_squeezed_channels
                    (Int 1) (Int 1) None 3 None true act_cls no_kwargs ;;
            c2 <- ConvLayerDynamicPadding num_squeezed_channels n_intermed
                    (Int 1) (Int 1) None 3 None true None no_kwargs ;;
            OK (Some (Sequential [c1; c2])))
         else OK None
     | None => OK None
     end ;;
   project_conv <-
     ConvLayerDynamicPadding n_intermed n_out (Int 1) (Int 1) None 3
       (Some Batch) true None no_kwargs ;;
   drop_conncet <- DropConnect.init drop_connect_rate ;;
   OK {| n_inp := n_inp; n_out := n_out; kernel_size := kernel_size;
         stride := stride; se_ratio := se_ratio; id_skip := id_skip;
         expand_ratio := expand_ratio;
         drop_connect_rate := drop_connect_rate;
         act_cls := act_cls; norm_type := norm_type;
         expand_conv := expand_conv; depthwise_conv := depthwise_conv;
         has_se := has_se; squeeze_expand := squeeze_expand;
         project_conv := project_conv; drop_conncet := drop_conncet |})%py.

(** An attribute that [__init__] set only on one branch. *)
Definition attr (m : option nnModule) : result nnModule :=
  match m with
  | Some c => OK c
  | None => Raise AttributeError
  end.

(** [[
    def forward(self, x):
        if self.id_skip: inputs = x
        if self.expand_ratio != 1: x = self.expand_conv(x)
        x = self.depthwise_conv(x)
        if self.has_se:
            x_squeezed = F.adaptive_avg_pool3d(x, 1)
            x_squeezed = self.squeeze_expand(x_squeezed)
            x = x * x_squeezed.sigmoid()
        x = self.project_conv(x)
        if self.id_skip and self.stride == 1 and self.n_inp == self.n_out:
            x = self.drop_conncet(x) + inputs
        return x
    ]] *)
Definition forward (self : t) (x : tensor) : M tensor :=
  let inputs := if id_skip self then Some x else None in
  (x <- (if negb (expand_ratio self =? 1)
         then lift (c <- attr (expand_conv self) ;; call c x)%py
         else ret x) ;;
   x <- lift (call (depthwise_conv self) x) ;;
   x <- (if has_se self
         then lift (x_squeezed <- adaptive_avg_pool3d x 1 ;;
                    se <- attr (squeeze_expand self) ;;
                    x_squeezed <- call se x_squeezed ;;
                    mul x (sigmoid x_squeezed))%py
         else ret x) ;;
   x <- lift (call (project_conv self) x) ;;
   if id_skip self && eq_int (stride self) 1 && (n_inp self =? n_out self)
   then
     match inputs with
     | Some inputs =>
         (d <- DropConnect.forward (drop_conncet self) x ;;
          lift (add d inputs))
     | None => lift (Raise (NameError "inputs"))
     end
   else ret x)%M.

(** *** The stages of [forward], one by one

    These name the parts of the block so that properties of [forward]
    can be stated; [forward] above does not use them. *)

(** The inverted bottleneck's expansion, present when
    [expand_ratio != 1]. *)
Definition expansion (self : t) (x : tensor) : result tensor :=
  if negb (expand_ratio self =? 1)
  then (c <- attr (expand_conv self) ;; call c x)%py
  else OK x.

Definition depthwise (self : t) (x : tensor) : result tensor :=
  call (depthwise_conv self) x.

(** Squeeze and excitation, present when [has_se]: [x] times the
    sigmoid of the squeeze-expand network on the global average pool
    of [x]. *)
Definition squeeze_excite (self : t) (x : tensor) : result tensor :=
  if has_se self
  then (x_squeezed <- adaptive_avg_pool3d x 1 ;;
        se <- attr (squeeze_expand self) ;;
        x_squeezed <- call se x_squeezed ;;
        mul x (sigmoid x_squeezed))%py
  else OK x.

Definition projection (self : t) (x : tensor) : result tensor :=
  call (project_conv self) x.

(** The convolutional path: expansion, depthwise convolution, squeeze
    and excitation, pointwise projection. *)
Definition conv_path (self : t) (x : tensor) : result tensor :=
  (x <- expansion self x ;;
   x <- depthwise self x ;;
   x <- squeeze_excite self x ;;
   projection self x)%py.

(** The condition of the skip connection. *)
Definition skips (self : t) : bool :=
  id_skip self && eq_int (stride self) 1 && (n_inp self =? n_out self).

(** [module.train(mode)] reaches every sub-module; only [DropConnect]
    has a mode of its own in this model. *)
Definition train (mode : bool) (self : t) : t :=
  {| n_inp := n_inp self; n_out := n_out self;
     kernel_size := kernel_size self; stride := stride self;
     se_ratio := se_ratio self; id_skip := id_skip self;
     expand_ratio := expand_ratio self;
     drop_connect_rate := drop_connect_rate self;
     act_cls := act_cls self; norm_type := norm_type self;
     expand_conv := expand_conv self;
     depthwise_conv := depthwise_conv self;
     has_se := has_se self; squeeze_expand := squeeze_expand self;
     project_conv := project_conv self;
     drop_conncet := DropConnect.train mode (drop_conncet self) |}.

End MBConvBlock.

(* ================================================================== *)
(** * EfficientNet *)
(* ================================================================== *)

Module EfficientNet.

Record block_args : Type := {
  num_repeat : Z;
  kernel_size : Z;
  stride : Z;
  expand_ratio : Z;
  in_channels : Z;
  out_channels : Z;
  se_ratio : Q;
  id_skip : bool
}.

Definition row (num_repeat kernel_size stride expand_ratio in_channels
                out_channels : Z) : block_args :=
  {| num_repeat := num_repeat; kernel_size := kernel_size;
     stride := stride; expand_ratio := expand_ratio;
     in_channels := in_channels; out_channels := out_channels;
     se_ratio := 1 # 4; id_skip := true |}.

(** The class attribute [block_arguments], row by row. *)
Definition block_arguments : list block_args :=
  [ row 1 3 1 1 32 16;
    row 2 3 2 6 16 24;
    row 2 4 2 6 24 40;
    row 3 3 2 6 40 80;
    row 3 4 1 6 80 112;
    row 4 4 2 6 112 192;
    row 1 3 1 6 192 320 ].

(** The children of the network: convolution layers and the head are
    modules of framework layers, a stage is [nn.Sequential] of blocks. *)
Inductive layer : Type :=
| LModule (m : nnModule)
| LStage (blocks : list MBConvBlock.t).

Definition t : Type := list layer.

(** The constructor's arguments. *)
Record args : Type := {
  ni : Z;
  num_classes : Z;
  width_coefficient : Q;
  depth_coefficient : Q;
  dropout_rate : Q;
  drop_connect_rate : Q;
  depth_divisor : Z;
  min_depth : option Z;
  act_cls : option activation;
  norm_type : option NormType
}.

(** [EfficientNet()] without arguments. *)
Definition default_args : args :=
  {| ni := 3; num_classes := 101; width_coefficient := 1;
     depth_coefficient := 1; dropout_rate := 2 # 10;
     drop_connect_rate := 2 # 10; depth_divisor := 8; min_depth := None;
     act_cls := Some SiLU; norm_type := Some Batch |}.

(** [[
    for _ in range(num_repeat):
        conv_block.append(MBConvBlock(n_inp=ni, n_out=nf, kernel_size=ks, stride=stride, ...))
        ni, stride = nf, 1
    ]] *)
Fixpoint conv_block (a : args) (r : block_args) (rate : Q)
    (n : nat) (ni nf stride : Z) : result (list MBConvBlock.t) :=
  match n with
  | O => OK []
  | S n' =>
      (b <- MBConvBlock.init ni nf (Int (kernel_size r)) (Int stride)
              (Some (se_ratio r)) (id_skip r) (expand_ratio r) rate
              (act_cls a) (norm_type a) ;;
       rest <- conv_block a r rate n' nf nf 1 ;;
       OK (b :: rest))%py
  end.

(** One turn of the loop over [block_arguments.iterrows()]: the new
    value of [nf] and the stage appended to [layers]. *)
Definition stage (a : args) (idx : Z) (r : block_args)
  : result (Z * layer) :=
  (ni <- get_n_channels (in_channels r) (width_coefficient a)
           (depth_divisor a) (min_depth a) ;;
   nf <- get_n_channels (out_channels r) (width_coefficient a)
           (depth_divisor a) (min_depth a) ;;
   let num_repeat :=
     if Qeq_bool (depth_coefficient a) 0 then num_repeat r
     else ceil (depth_coefficient a * inject_Z (num_repeat r))%Q in
   let rate := (drop_connect_rate a * inject_Z idx
                / inject_Z (Z.of_nat (length block_arguments)))%Q in
   blocks <- conv_block a r rate (Z.to_nat num_repeat) ni nf (stride r) ;;
   OK (nf, LStage blocks))%py.

Fixpoint stages (a : args) (idx : Z) (rows : list block_args)
  : result (list (Z * layer)) :=
  match rows with
  | [] => OK []
  | r :: rows' =>
      (s <- stage a idx r ;;
       rest <- stages a (idx + 1) rows' ;;
       OK (s :: rest))%py
  end.

Definition init (a : args) : result t :=
  (nf_stem <- get_n_channels 32 (width_coefficient a) (depth_divisor a)
                (min_depth a) ;;
   stem <- ConvLayerDynamicPadding (ni a) nf_stem (Int 3) (Int 2)
             (Some false) 3 (norm_type a) true None no_kwargs ;;
   body <- stages a 0 block_arguments ;;
   ni <- Py.last (map fst body) ;;
   nf <- get_n_channels ni (width_coefficient a) (depth_divisor a)
           (min_depth a) ;;
   final <- ConvLayerDynamicPadding ni nf (Int 1) (Int 1) (Some false) 3
              (norm_type a) true (act_cls a) no_kwargs ;;
   dropout <- Dropout_init (dropout_rate a) ;;
   let head := Sequential [ Layer (AdaptiveAvgPool3d 1); Layer Flatten;
                            Layer dropout;
                            Layer (Linear nf (num_classes a)) ] in
   OK (LModule stem :: map snd body ++ [LModule final; LModule head]))%py.

Fixpoint forward_blocks (bs : list MBConvBlock.t) (x : tensor) : M tensor :=
  match bs with
  | [] => ret x
  | b :: bs' => (y <- MBConvBlock.forward b x ;; forward_blocks bs' y)%M
  end.

Definition forward_layer (l : layer) (x : tensor) : M tensor :=
  match l with
  | LModule m => lift (call m x)
  | LStage bs => forward_blocks bs x
  end.

(** [nn.Sequential.forward]. *)
Fixpoint forward (self : t) (x : tensor) : M tensor :=
  match self with
  | [] => ret x
  | l :: ls => (y <- forward_layer l x ;; forward ls y)%M
  end.

Definition train_layer (mode : bool) (l : layer) : layer :=
  match l with
  | LModule m => LModule m
  | LStage bs => LStage (map (MBConvBlock.train mode) bs)
  end.

(** [module.train(mode)]. *)
Definition train (mode : bool) (self : t) : t :=
  map (train_layer mode) self.

End EfficientNet.

(* ================================================================== *)
(** * ASPP *)
(* ================================================================== *)

Module ASPPPooling.

(** The children of this [nn.Sequential]. *)
Definition t : Type := list nnModule.

(** [[
    super().__init__(nn.AdaptiveAvgPool3d(1),
        ConvLayer(ni=ni, nf=nf, ks=1, ndim=3, bias=False, norm_type=None, act_cls=act_cls))
    ]] *)
Definition init (ni nf : Z) (norm_type : option NormType)
    (act_cls : option activation) : result t :=
  (c <- ConvLayer ni nf (Int 1) (Int 1) None (Some false) 3 None true
          act_cls no_kwargs ;;
   OK [Layer (AdaptiveAvgPool3d 1); c])%py.

(** [[
    size = x.shape[-3:]
    for module in self: x = module(x)
    return F.interpolate(x, size=size, mode='trilinear', align_corners=False)
    ]] *)
Definition forward (self : t) (x : tensor) : result tensor :=
  let size := last3 (shape_of x) in
  (x <- call (Sequential self) x ;;
   interpolate x size trilinear)%py.

End ASPPPooling.

Module ASPP.

Inductive branch : Type :=
| Conv (m : nnModule)
| Pooling (p : ASPPPooling.t).

Record t : Type := { layers : list branch; project : nnModule }.

Definition init (ni : Z) (dilations : list Z) (nf : Z)
    (norm_type : option NormType) (act_cls : option activation) (ps : Q)
  : result t :=
  (c0 <- ConvLayer ni nf (Int 1) (Int 1) None (Some false) 3 norm_type
           true act_cls no_kwargs ;;
   cs <- mapM (fun dilation =>
                 ConvLayer ni nf (Int 3) (Int 1) (Some (Int dilation))
                   None 3 norm_type true act_cls
                   {| dilation := Int dilation; groups := 1 |})
           dilations ;;
   pooling <- ASPPPooling.init ni nf norm_type act_cls ;;
   let layers := map Conv (c0 :: cs) ++ [Pooling pooling] in
   pc <- ConvLayer (Z.of_nat (length layers) * nf) nf (Int 1) (Int 1)
           None (Some false) 3 norm_type true act_cls no_kwargs ;;
   dropout <- Dropout_init ps ;;
   OK {| layers := layers;
         project := Sequential [pc; Layer dropout] |})%py.

Definition call_branch (x : tensor) (b : branch) : result tensor :=
  match b with
  | Conv m => call m x
  | Pooling p => ASPPPooling.forward p x
  end.

(** [[
    res = [module(x) for module in self.layers]
    return self.project(torch.cat(res, dim=1))
    ]] *)
Definition forward (self : t) (x : tensor) : result tensor :=
  (res <- mapM (call_branch x) (layers self) ;;
   c <- cat1 res ;;
   call (project self) c)%py.

End ASPP.

(* ================================================================== *)
(** * Hooks and dummy forward passes *)
(* ================================================================== *)

(** The introspection utilities of the training framework, as the
    constructor of [DynamicDeepLab] uses them.  An encoder is a sequence
    of modules that can be indexed; [in_channels] is the number of input
    channels the framework reads off its first weight layer. *)
Module Hooks.

Record encoder : Type := { in_channels : Z; body : list nnModule }.

(** The modules a [Hooks] object holds a hook on. *)
Definition t : Type := list path.

Definition path_eqb (p q : path) : bool :=
  if list_eq_dec Nat.eq_dec p q then true else false.

(** A forward hook on the module at [p] stores the module's output. *)
Definition fire (p : path) (y : tensor) : M tensor :=
  fun w =>
    if existsb (path_eqb p) (hooks w)
    then OK (y, {| rng := rng w; hooks := hooks w;
                   stored := (p, y) ::
                     filter (fun e => negb (path_eqb p (fst e))) (stored w) |})
    else OK (y, w).

(** [m(x)] for the module [m] at path [p] of the encoder: the hooks
    registered on [m] and on the modules inside it fire. *)
Fixpoint call_at (p : path) (m : nnModule) (x : tensor) : M tensor :=
  (y <- match m with
        | Layer q => lift (call_prim q x)
        | Opaque name f => lift (call_opaque name f x)
        | Sequential ms =>
            (fix go (ms : list nnModule) (j : nat) (x : tensor) : M tensor :=
               match ms with
               | [] => ret x
               | m' :: ms' =>
                   (y <- call_at (p ++ [j]) m' x ;; go ms' (S j) y)
               end) ms O x
        end ;;
   fire p y)%M.

(** The encoder is called as a whole: its children run in order. *)
Definition call_encoder (e : encoder) (x : tensor) : M tensor :=
  call_at [] (Sequential (body e)) x.

(** [hook_outputs(modules)]: one hook on every module of the iterable
    [modules]; here [modules] is the module at path [p]. *)
Definition hook_outputs (p : path) (m : nnModule) : M t :=
  (ms <- lift (iterate m) ;;
   let hs := map (fun j => p ++ [j]) (seq 0 (length ms)) in
   fun w => OK (hs, {| rng := rng w; hooks := hs ++ hooks w;
                       stored := stored w |}))%M.

(** [hooks.stored]: what every hook of the object stored, in order. *)
Definition get_stored (hs : t) : M (list tensor) :=
  fun w =>
    match mapM (fun p =>
                  match find (fun e => path_eqb p (fst e)) (stored w) with
                  | Some e => OK (snd e)
                  | None => Raise AttributeError
                  end) hs with
    | OK ts => OK (ts, w)
    | Raise e => Raise e
    end.

(** The dummy batch: one sample with [in_channels] channels. *)
Definition dummy_batch (e : encoder) (img_size : list Z) : tensor :=
  {| shape_of := 1 :: in_channels e :: img_size;
     data := EInput "dummy_batch" |}.

(** [dummy_eval(m, size)]. *)
Definition dummy_eval (e : encoder) (img_size : list Z) : M tensor :=
  call_encoder e (dummy_batch e img_size).

(** The outputs of the children of the encoder on [x], in order. *)
Fixpoint children_outputs (ms : list nnModule) (j : nat) (x : tensor)
  : M (list tensor) :=
  match ms with
  | [] => ret []
  | m :: ms' =>
      (y <- call_at [j] m x ;;
       rest <- children_outputs ms' (S j) y ;;
       ret (y :: rest))%M
  end.

(** [model_sizes(m, size)]: the shape of the output of every child of
    [m] in a dummy forward pass. *)
Definition model_sizes (e : encoder) (img_size : list Z) : M (list shape) :=
  (outs <- children_outputs (body e) O (dummy_batch e img_size) ;;
   ret (map shape_of outs))%M.

(** [[
    feature_szs = [size[-1] for size in sizes]
    sz_chg_idxs = list(np.where(np.array(feature_szs[:-1]) != np.array(feature_szs[1:]))[0])
    ]] *)
Fixpoint where_changes (feature_szs : list Z) (i : nat) : list nat :=
  match feature_szs with
  | a :: (b :: _) as rest =>
      (if a =? b then [] else [i]) ++ where_changes rest (S i)
  | _ => []
  end.

Definition _get_sz_change_idxs (sizes : list shape) : result (list nat) :=
  (feature_szs <- mapM Py.last sizes ;;
   OK (where_changes feature_szs O))%py.

End Hooks.

(* ================================================================== *)
(** * DeepLabDecoder *)
(* ================================================================== *)

Module DeepLabDecoder.

Record t : Type := {
  hook : Hooks.t;
  low_lvl_conv : nnModule;
  last_conv : nnModule
}.

Definition init (ni low_lvl_ni : Z) (hook : Hooks.t) (n_out : Z)
    (norm_type : option NormType) (act_cls : option activation) (ps : Q)
  : result t :=
  (low_lvl_conv <- ConvLayer low_lvl_ni (low_lvl_ni / 2) (Int 1) (Int 1)
                     None (Some false) 3 norm_type true act_cls no_kwargs ;;
   c1 <- ConvLayer (ni + low_lvl_ni / 2) ni (Int 3) (Int 1) (Some (Int 1))
           (Some false) 3 norm_type true act_cls no_kwargs ;;
   d1 <- Dropout_init ps ;;
   c2 <- ConvLayer ni ni (Int 3) (Int 1) (Some (Int 1)) (Some false) 3
           norm_type true act_cls no_kwargs ;;
   d2 <- Dropout_init (ps / 5) ;;
   OK {| hook := hook;
         low_lvl_conv := low_lvl_conv;
         last_conv :=
           Sequential [ c1; Layer d1; c2; Layer d2;
                        Layer (Conv3d ni n_out [1; 1; 1] [1; 1; 1]
                                 [0; 0; 0] [1; 1; 1] 1 true) ] |})%py.

(** [sum(ts)]: the additions start from the integer [0]. *)
Definition py_sum (ts : list tensor) : result tensor :=
  match ts with
  | [] => Raise TypeError
  | t0 :: ts' =>
      fold_left (fun acc t => (a <- acc ;; add a t)%py) ts'
        (OK (add_scalar 0 t0))
  end.

(** [[
    def forward(self, x):
        s = self.low_lvl_conv(sum(self.hook.stored))
        ssh = s.shape[-3:]
        if ssh != x.shape[-3:]:
            x = F.interpolate(x, size=ssh, mode='nearest')
        x = torch.cat((x, s), dim=1)
        return self.last_conv(x)
    ]] *)
Definition forward (self : t) (x : tensor) : M tensor :=
  (stored <- Hooks.get_stored (hook self) ;;
   s <- lift (low <- py_sum stored ;; call (low_lvl_conv self) low)%py ;;
   let ssh := last3 (shape_of s) in
   x <- (if negb (list_eqb ssh (last3 (shape_of x)))
         then lift (interpolate x ssh nearest)
         else ret x) ;;
   lift (c <- cat1 [x; s] ;; call (last_conv self) c)%py)%M.

End DeepLabDecoder.

(* ================================================================== *)
(** * DynamicDeepLab *)
(* ================================================================== *)

Module DynamicDeepLab.

(** The entries of [self.layers]. *)
Inductive layer : Type :=
| LEncoder (e : Hooks.encoder)
| LASPP (a : ASPP.t)
| LDecoder (d : DeepLabDecoder.t)
| LResizeToOrig.

Record t : Type := { sfs : Hooks.t; layers : list layer }.

(** [[
    sizes = model_sizes(encoder, size=img_size)
    sz_chg_idxs = list(_get_sz_change_idxs(sizes))
    self.sfs = hook_outputs(encoder[sz_chg_idxs[1]], detach=False)
    x = dummy_eval(encoder, img_size).detach()
    ni = sizes[-1][1]
    nf = ni//4
    dilations=[1, 12, 24, 36] if ni > 512 else [1, 6, 12, 18]
    aspp = ASPP(ni=ni, nf=nf, dilations=dilations, norm_type=norm_type, act_cls=act_cls).eval()
    x = aspp(x)
    decoder = DeepLabDecoder(ni=nf, low_lvl_ni=sizes[sz_chg_idxs[1]][1], hook=self.sfs, n_out=n_out,
                             norm_type=norm_type, act_cls=act_cls).eval()
    x = decoder(x)
    self.layers = nn.ModuleList([encoder, aspp, decoder, ResizeToOrig()])
    ]] *)
Definition init (encoder : Hooks.encoder) (n_out : Z) (img_size : list Z)
    (act_cls : option activation) (norm_type : option NormType) : M t :=
  (sizes <- Hooks.model_sizes encoder img_size ;;
   sz_chg_idxs <- lift (Hooks._get_sz_change_idxs sizes) ;;
   i1 <- lift (index sz_chg_idxs 1) ;;
   hooked <- lift (index (Hooks.body encoder) i1) ;;
   sfs <- Hooks.hook_outputs [i1] hooked ;;
   x <- Hooks.dummy_eval encoder img_size ;;
   ni <- lift (sz <- Py.last sizes ;; index sz 1)%py ;;
   let nf := ni / 4 in
   let dilations := if 512 <? ni then [1; 12; 24; 36] else [1; 6; 12; 18] in
   aspp <- lift (ASPP.init ni dilations nf norm_type act_cls (1 # 2)) ;;
   x <- lift (ASPP.forward aspp x) ;;
   low_lvl_ni <- lift (sz <- index sizes i1 ;; index sz 1)%py ;;
   decoder <- lift (DeepLabDecoder.init nf low_lvl_ni sfs n_out norm_type
                      act_cls (1 # 2)) ;;
   x <- DeepLabDecoder.forward decoder x ;;
   ret {| sfs := sfs;
          layers := [LEncoder encoder; LASPP aspp; LDecoder decoder;
                     LResizeToOrig] |})%M.

End DynamicDeepLab.

(* ================================================================== *)
(** * The values of a symbolic tensor *)
(* ================================================================== *)

(** The element of a tensor at an index, given the values of the inputs
    and of the random draws.  The element-wise operations are computed;
    the layers of the framework, whose weights are not part of the
    model, are read from the interpretation. *)
Module Denote.

Definition index := list Z.

Record interp : Type := {
  i_input : string -> index -> Q;
  i_rand : nat -> index -> Q;
  i_un : unop -> (index -> Q) -> index -> Q;
  i_cat : Z -> list (index -> Q) -> index -> Q
}.

(** Every draw of [torch.rand] lies in [[0, 1)]. *)
Definition uniform (I : interp) : Prop :=
  forall d i, (0 <= i_rand I d i)%Q /\ (i_rand I d i < 1)%Q.

(** The index into an operand of shape [s] that the element [idx] of a
    broadcast result reads: an axis of size one is read at [0]. *)
Fixpoint bidx_rev (rs ridx : list Z) : list Z :=
  match rs, ridx with
  | s :: rs', i :: ridx' => (if s =? 1 then 0 else i) :: bidx_rev rs' ridx'
  | _, _ => []
  end.

Definition bidx (s : shape) (idx : index) : index :=
  rev (bidx_rev (rev s) (rev idx)).

Fixpoint denote (I : interp) (e : expr) : index -> Q :=
  match e with
  | EInput name => i_input I name
  | ERand d => i_rand I d
  | EAddScalar q e => fun i => (q + denote I e i)%Q
  | EDivScalar e q => fun i => (denote I e i / q)%Q
  | EFloor e => fun i => inject_Z (Qfloor (denote I e i))
  | EMul sa a sb b =>
      fun i => (denote I a (bidx sa i) * denote I b (bidx sb i))%Q
  | EAdd sa a sb b =>
      fun i => (denote I a (bidx sa i) + denote I b (bidx sb i))%Q
  | EUn o e => i_un I o (denote I e)
  | ECat dim es => i_cat I dim (map (denote I) es)
  end.

(** [idx] is an index into a tensor of shape [s]. *)
Fixpoint in_range (s : shape) (idx : index) : Prop :=
  match s, idx with
  | [], [] => True
  | n :: s', i :: idx' => 0 <= i < n /\ in_range s' idx'
  | _, _ => False
  end.

End Denote.

(* ================================================================== *)
(** * Reading the structure of a module *)
(* ================================================================== *)

(** Whether a layer is the three-dimensional variant of its kind. *)
Definition prim_is_3d (p : prim) : bool :=
  match p with
  | ConvNd ndim _ _ _ _ _ _ _ _ => (ndim =? 3)%nat
  | BatchNormNd ndim _ | InstanceNormNd ndim _ => (ndim =? 3)%nat
  | ConstantPadNd ndim _ _ => (ndim =? 3)%nat
  | AdaptiveAvgPoolNd ndim _ => (ndim =? 3)%nat
  | Act _ | Flatten | Dropout _ | Linear _ _ => true
  end.

Fixpoint all_3d (m : nnModule) : bool :=
  match m with
  | Layer p => prim_is_3d p
  | Opaque _ _ => true
  | Sequential ms => forallb all_3d ms
  end.

Definition block_all_3d (b : MBConvBlock.t) : bool :=
  match MBConvBlock.expand_conv b with Some m => all_3d m | None => true end
  && all_3d (MBConvBlock.depthwise_conv b)
  && match MBConvBlock.squeeze_expand b with Some m => all_3d m | None => true end
  && all_3d (MBConvBlock.project_conv b).





(* ================================================================== *)
(** * Vocabulary of the properties *)
(* ================================================================== *)


(** The shape a strided convolution with dynamic padding returns on one
    axis. *)
Definition out_size (i s : Z) : Z := (i - 1) / s + 1.






(** A convolution layer of the training framework in three dimensions
    with stride one: kernel [k], padding [p] and dilation [dl] on every
    axis. *)
Definition conv3 (ni nf k p dl : Z) (bias : option bool)
    (nt : option NormType) (act : option activation) : nnModule :=
  Sequential (Layer (ConvNd 3 ni nf [k; k; k] [1; 1; 1] [p; p; p]
                       [dl; dl; dl] 1 (conv_bias bias nt))
              :: act_bn 3 nf nt true act).

(** A residual block of a video ResNet, known by its shape: [cin]
    channels in, [cout] out, stride [s] on every axis. *)
Definition basic_block (name : string) (cin cout s : Z) : nnModule :=
  Opaque name
    (fun sh => match sh with
               | [b; c; d; h; w] =>
                   if c =? cin
                   then Some [b; cout; out_size d s; out_size h s; out_size w s]
                   else None
               | _ => None
               end).

Definition r3d_stem : nnModule :=
  Sequential [ Layer (Conv3d 3 64 [3; 7; 7] [1; 2; 2] [1; 3; 3] [1; 1; 1] 1 false);
               Layer (BatchNormNd 3 64); Layer (Act ReLU) ].

Definition r3d_layer (name : string) (cin cout s : Z) : nnModule :=
  Sequential [ basic_block (name ++ ".0") cin cout s;
               basic_block (name ++ ".1") cout cout 1 ].

(** The body of the 18-layer video ResNet, the encoder of the
    notebook's example. *)
Definition r3d_18_body : Hooks.encoder :=
  {| Hooks.in_channels := 3;
     Hooks.body := [ r3d_stem;
                     r3d_layer "layer1" 64 64 1;
                     r3d_layer "layer2" 64 128 2;
                     r3d_layer "layer3" 128 256 2;
                     r3d_layer "layer4" 256 512 2 ] |}.

(** The same encoder cut after its second stage: its activations change
    size once. *)
Definition r3d_18_cut : Hooks.encoder :=
  {| Hooks.in_channels := 3;
     Hooks.body := [ r3d_stem;
                     r3d_layer "layer1" 64 64 1;
                     r3d_layer "layer2" 64 128 2 ] |}.

(** A residual block of a two-dimensional ResNet: its activations have
    four axes. *)
Definition basic_block2d (name : string) (cin cout s : Z) : nnModule :=
  Opaque name
    (fun sh => match sh with
               | [b; c; h; w] =>
                   if c =? cin
                   then Some [b; cout; out_size h s; out_size w s]
                   else None
               | _ => None
               end).

Definition resnet_layer (name : string) (cin cout s : Z) : nnModule :=
  Sequential [ basic_block2d (name ++ ".0") cin cout s;
               basic_block2d (name ++ ".1") cout cout 1 ].

(** The body of the two-dimensional 18-layer ResNet. *)
Definition resnet18_body : Hooks.encoder :=
  {| Hooks.in_channels := 3;
     Hooks.body := [ Layer (ConvNd 2 3 64 [7; 7] [2; 2] [3; 3] [1; 1] 1 false);
                     Layer (BatchNormNd 2 64);
                     Layer (Act ReLU);
                     basic_block2d "maxpool" 64 64 2;
                     resnet_layer "layer1" 64 64 1;
                     resnet_layer "layer2" 64 128 2;
                     resnet_layer "layer3" 128 256 2;
                     resnet_layer "layer4" 256 512 2 ] |}.

(** The state before anything ran: no draw made, no hook registered. *)
Definition world0 : world := {| rng := O; hooks := []; stored := [] |}.

(** The input of the notebooks' examples, by its shape. *)
Definition input (s : shape) : tensor := {| shape_of := s; data := EInput "x" |}.

(** A layer that returns a tensor of the shape of its input. *)
Definition keeps_shape (m : nnModule) : Prop :=
  forall x y, call m x = OK y -> shape_of y = shape_of x.

(** What [DeepLabDecoder.forward] did when it returned [y]: [half] is
    the number of channels that [low_lvl_conv] returns and [n_out] the
    one of the last convolution. *)
Definition decoded (self : DeepLabDecoder.t) (half n_out : Z) (x : tensor)
    (wd : world) (y : tensor) : Prop :=
  exists stored summed s x' c b cx d h w,
    Hooks.get_stored (DeepLabDecoder.hook self) wd = OK (stored, wd) /\
    DeepLabDecoder.py_sum stored = OK summed /\
    call (DeepLabDecoder.low_lvl_conv self) summed = OK s /\
    shape_of s = [b; half; d; h; w] /\
    (if list_eqb (last3 (shape_of s)) (last3 (shape_of x))
     then x' = x
     else interpolate x (last3 (shape_of s)) nearest = OK x') /\
    shape_of x' = [b; cx; d; h; w] /\
    cat1 [x'; s] = OK c /\
    data c = ECat 1 [data x'; data s] /\
    shape_of c = [b; cx + half; d; h; w] /\
    call (DeepLabDecoder.last_conv self) c = OK y /\
    shape_of y = [b; n_out; d; h; w].

(** What the constructor of [DynamicDeepLab] did when it returned [m]. *)
Definition spliced (encoder : Hooks.encoder) (n_out : Z) (img_size : list Z)
    (act : option activation) (nt : option NormType)
    (w : world) (m : DynamicDeepLab.t) (w' : world) : Prop :=
  exists sizes w1 idxs i1 children ni aspp decoder low,
    Hooks.model_sizes encoder img_size w = OK (sizes, w1) /\
    Hooks._get_sz_change_idxs sizes = OK idxs /\
    nth_error idxs 1 = Some i1 /\
    nth_error (Hooks.body encoder) i1 = Some (Sequential children) /\
    DynamicDeepLab.sfs m = map (fun j => [i1; j]) (seq 0 (length children)) /\
    hooks w' = DynamicDeepLab.sfs m ++ hooks w /\
    DynamicDeepLab.layers m =
      [ DynamicDeepLab.LEncoder encoder; DynamicDeepLab.LASPP aspp;
        DynamicDeepLab.LDecoder decoder; DynamicDeepLab.LResizeToOrig ] /\
    (sz <- Py.last sizes ;; index sz 1)%py = OK ni /\
    ASPP.init ni (if 512 <? ni then [1; 12; 24; 36] else [1; 6; 12; 18])
      (ni / 4) nt act (1 # 2) = OK aspp /\
    (sz <- index sizes i1 ;; index sz 1)%py = OK low /\
    DeepLabDecoder.init (ni / 4) low (DynamicDeepLab.sfs m) n_out nt act
      (1 # 2) = OK decoder /\
    DeepLabDecoder.hook decoder = DynamicDeepLab.sfs m /\
    DeepLabDecoder.low_lvl_conv decoder =
      conv3 low (low / 2) 1 0 1 (Some false) nt act /\
    forall x wd y wd',
      DeepLabDecoder.forward decoder x wd = OK (y, wd') ->
      wd' = wd /\ decoded decoder (low / 2) n_out x wd y.

(* ================================================================== *)
(** * Further vocabulary *)
(* ================================================================== *)

(** [ceil(i / s)] on integers, for a positive [s]. *)
Definition ceil_div (i s : Z) : Z := (i + s - 1) / s.


(** The arguments [a] with another depth coefficient. *)
Definition with_depth (a : EfficientNet.args) (depth : Q) : EfficientNet.args :=
  {| EfficientNet.ni := EfficientNet.ni a;
     EfficientNet.num_classes := EfficientNet.num_classes a;
     EfficientNet.width_coefficient := EfficientNet.width_coefficient a;
     EfficientNet.depth_coefficient := depth;
     EfficientNet.dropout_rate := EfficientNet.dropout_rate a;
     EfficientNet.drop_connect_rate := EfficientNet.drop_connect_rate a;
     EfficientNet.depth_divisor := EfficientNet.depth_divisor a;
     EfficientNet.min_depth := EfficientNet.min_depth a;
     EfficientNet.act_cls := EfficientNet.act_cls a;
     EfficientNet.norm_type := EfficientNet.norm_type a |}.

(* ================================================================== *)
(** * DynamicDeepLab.__del__ *)
(* ================================================================== *)




(* ================================================================== *)
(** * The model functions efficientnet_b0 ... efficientnet_l2 *)
(* ================================================================== *)

(** [_model_urls]: the architectures with pretrained weights. *)
Definition _model_urls : list (string * string) :=
  [ ("efficientnet_b0",
     "https://rad-ai.charite.de/pretrained_models/efficientnet_b0_3d_ucf100.pth");
    ("efficientnet_b1",
     "https://rad-ai.charite.de/pretrained_models/efficientnet_b1_3d_ucf100.pth");
    ("efficientnet_b3",
     "https://rad-ai.charite.de/pretrained_models/efficientnet_b3_3d_ucf100.pth") ]%string.

(** [d[key]] on a dictionary with string keys. *)
Fixpoint dict_get (d : list (string * string)) (key : string) : option string :=
  match d with
  | [] => None
  | (k, v) :: d' => if String.eqb k key then Some v else dict_get d' key
  end.

(** What a call of a model function ends in: a value, an exception of
    the constructor or of the loading of weights, or the [KeyError] of a
    dictionary. *)
Inductive outcome (A : Type) : Type :=
| Returns (a : A)
| Raises (e : exn)
| RaisesKeyError (key : string).
Arguments Returns {A} a.
Arguments Raises {A} e.
Arguments RaisesKeyError {A} key.

(** The keyword arguments that the model functions hand on to
    [EfficientNet]: the arguments of the constructor that the model
    functions do not set themselves.  An argument that the caller leaves
    out has the default of the constructor. *)
Record efficientnet_kwargs : Type := {
  kw_ni : Z;
  kw_num_classes : Z;
  kw_drop_connect_rate : Q;
  kw_depth_divisor : Z;
  kw_min_depth : option Z;
  kw_act_cls : option activation;
  kw_norm_type : option NormType
}.

(** No keyword argument given. *)
Definition default_kwargs : efficientnet_kwargs :=
  {| kw_ni := 3; kw_num_classes := 101; kw_drop_connect_rate := 2 # 10;
     kw_depth_divisor := 8; kw_min_depth := None;
     kw_act_cls := Some SiLU; kw_norm_type := Some Batch |}.

(** [EfficientNet(width_coefficient=..., depth_coefficient=...,
    dropout_rate=..., **kwargs)]: the arguments the constructor gets. *)
Definition constructor_args (width_coefficient depth_coefficient
    dropout_rate : Q) (kwargs : efficientnet_kwargs) : EfficientNet.args :=
  {| EfficientNet.ni := kw_ni kwargs;
     EfficientNet.num_classes := kw_num_classes kwargs;
     EfficientNet.width_coefficient := width_coefficient;
     EfficientNet.depth_coefficient := depth_coefficient;
     EfficientNet.dropout_rate := dropout_rate;
     EfficientNet.drop_connect_rate := kw_drop_connect_rate kwargs;
     EfficientNet.depth_divisor := kw_depth_divisor kwargs;
     EfficientNet.min_depth := kw_min_depth kwargs;
     EfficientNet.act_cls := kw_act_cls kwargs;
     EfficientNet.norm_type := kw_norm_type kwargs |}.

Section ModelFunctions.

(** The download of a state dictionary and its loading into the model
    are the framework's: [load_weights url progress model] stands for
    [model.load_state_dict(load_state_dict_from_url(url,
    progress=progress)['model'])] and gives the model with the weights
    loaded, or the exception raised on the way. *)
Variable load_weights : string -> bool -> EfficientNet.t -> result EfficientNet.t.

(** [[
    def _efficientnet(arch, width_coefficient, depth_coefficient, dropout_rate, pretrained, progress, **kwargs):
        model = EfficientNet(width_coefficient=width_coefficient, depth_coefficient=depth_coefficient,
                             dropout_rate=dropout_rate, **kwargs)
        if pretrained:
            state_dict = load_state_dict_from_url(_model_urls[arch], progress=True)
            model.load_state_dict(state_dict['model'])
        return model
    ]] *)
Definition _efficientnet (arch : string) (width_coefficient depth_coefficient
    dropout_rate : Q) (pretrained progress : bool)
    (kwargs : efficientnet_kwargs) : outcome EfficientNet.t :=
  match EfficientNet.init (constructor_args width_coefficient depth_coefficient
                             dropout_rate kwargs) with
  | Raise e => Raises e
  | OK model =>
      if pretrained then
        match dict_get _model_urls arch with
        | None => RaisesKeyError arch
        | Some url =>
            match load_weights url true model with
            | OK model => Returns model
            | Raise e => Raises e
            end
        end
      else Returns model
  end.



Definition efficientnet_b0 (pretrained progress : bool)
    (kwargs : efficientnet_kwargs) : list string * outcome EfficientNet.t :=
  ([], _efficientnet "efficientnet_b0" 1 1 (2 # 10) pretrained progress kwargs).










End ModelFunctions.



(* ================================================================== *)
(** * What a run of the encoder leaves in the hooks *)
(* ================================================================== *)




(* ================================================================== *)
(** * Properties *)
(* ================================================================== *)

(** ** Arithmetic of Python values *)




(** ** calculate_padding *)


(** ** get_n_channels *)



(** The first line of [get_n_channels] names a variable that does not
    exist: a width coefficient of zero ends in [NameError]. *)
Example get_n_channels_zero_width :
  get_n_channels 32 0 8 None = Raise (NameError "filters").
Proof. reflexivity. Qed.

(** ** DropConnect *)

Lemma init_ok_iff (p : Q) :
  (0 <= p /\ p <= 1)%Q <->
  DropConnect.init p = OK {| DropConnect.keep_prob := 1 - p; DropConnect.training := true |}.
Proof.
  unfold DropConnect.init. split.
  - intros [H0 H1]. apply Qle_bool_iff in H0, H1. rewrite H0, H1. reflexivity.
  - destruct (Qle_bool 0 p) eqn:E0; destruct (Qle_bool p 1) eqn:E1;
      cbn [andb]; try discriminate.
    intros _. split; apply Qle_bool_iff; assumption.
Qed.



Lemma forward_eval (self : DropConnect.t) (x : tensor) (w : world) :
  DropConnect.training self = false ->
  DropConnect.forward self x w = OK (x, w).
Proof.
  intros H. unfold DropConnect.forward. rewrite H. reflexivity.
Qed.

(** C6.  For every [p] in [[0, 1]], [DropConnect(p)] that is not in
    training mode returns its input unchanged (and draws no random
    number). *)
Theorem DropConnect_eval_identity (p : Q) :
  (0 <= p)%Q -> (p <= 1)%Q ->
  exists self, DropConnect.init p = OK self /\
    forall (x : tensor) (w : world),
      DropConnect.forward (DropConnect.train false self) x w = OK (x, w).
Proof.
  intros H0 H1. eexists. split.
  - apply init_ok_iff. split; assumption.
  - intros x w. apply forward_eval. reflexivity.
Qed.

Lemma DropConnect_eval_identity_witness :
  exists self, DropConnect.init (1 # 2) = OK self /\
    forall (x : tensor) (w : world),
      DropConnect.forward (DropConnect.train false self) x w = OK (x, w).
Proof.
  apply (DropConnect_eval_identity (1 # 2)); unfold Qle; cbn; lia.
Defined.

Lemma broadcast_mask (N C D H W : Z) :
  broadcast [N; C; D; H; W] [N; 1; 1; 1; 1] = OK [N; C; D; H; W].
Proof.
  unfold broadcast. cbn [rev app broadcast_rev].
  rewrite Z.eqb_refl.
  destruct (W =? 1) eqn:EW; destruct (H =? 1) eqn:EH;
    destruct (D =? 1) eqn:ED; destruct (C =? 1) eqn:EC;
    rewrite ?Z.eqb_eq in *; subst; cbn; reflexivity.
Qed.


Lemma bidx_one (a i : Z) : 0 <= i < a -> (if a =? 1 then 0 else i) = i.
Proof.
  intros Hi. destruct (a =? 1) eqn:E; [|reflexivity].
  apply Z.eqb_eq in E. lia.
Qed.

Lemma bidx5 (N C D H W n c d h v : Z) :
  Denote.in_range [N; C; D; H; W] [n; c; d; h; v] ->
  Denote.bidx [N; C; D; H; W] [n; c; d; h; v] = [n; c; d; h; v].
Proof.
  cbn [Denote.in_range]. intros (Hn & Hc & Hd & Hh & Hv & _).
  unfold Denote.bidx. cbn [rev app Denote.bidx_rev].
  rewrite !bidx_one by assumption. reflexivity.
Qed.

Lemma bidx_mask (N n c d h v : Z) :
  0 <= n < N ->
  Denote.bidx [N; 1; 1; 1; 1] [n; c; d; h; v] = [n; 0; 0; 0; 0].
Proof.
  intros Hn. unfold Denote.bidx. cbn [rev app Denote.bidx_rev].
  rewrite bidx_one by assumption. reflexivity.
Qed.

Lemma mask_is_bit (kp u : Q) :
  (0 < kp)%Q -> (kp <= 1)%Q -> (0 <= u)%Q -> (u < 1)%Q ->
  Qfloor (kp + u) = 0 \/ Qfloor (kp + u) = 1.
Proof.
  intros Hk0 Hk1 Hu0 Hu1.
  pose proof (Qfloor_le (kp + u)) as Hle.
  pose proof (Qlt_floor (kp + u)) as Hlt.
  rewrite inject_Z_plus in Hlt.
  set (f := Qfloor (kp + u)) in *.
  set (g := inject_Z f) in *.
  change (inject_Z 1) with 1%Q in Hlt.
  assert (H1 : (g < 2)%Q) by lra.
  assert (H2 : (-1 < g)%Q) by lra.
  change 2%Q with (inject_Z 2) in H1.
  change (-1)%Q with (inject_Z (-1)) in H2.
  unfold g in H1, H2. rewrite <- Zlt_Qlt in H1, H2. lia.
Qed.



(** ** Results and sequences *)

Lemma bind_ok_inv {A B} (r : result A) (k : A -> result B) (b : B) :
  Py.bind r k = OK b -> exists a, r = OK a /\ k a = OK b.
Proof.
  destruct r as [a|e]; cbn; intros H; [eauto|discriminate].
Qed.



Ltac case_result :=
  match goal with
  | |- context [match ?r with OK _ => _ | Raise _ => _ end] =>
      lazymatch r with
      | context [match _ with _ => _ end] => fail
      | _ => destruct r eqn:?
      end
  | |- context [if ?b then _ else _] =>
      lazymatch b with
      | context [match _ with _ => _ end] => fail
      | _ => destruct b eqn:?
      end
  end.

Lemma forward_decompose (self : MBConvBlock.t) (x : tensor) (w : world) :
  MBConvBlock.forward self x w =
    (if MBConvBlock.skips self
     then (y <- lift (MBConvBlock.conv_path self x) ;;
           d <- DropConnect.forward (MBConvBlock.drop_conncet self) y ;;
           lift (add d x))%M
     else lift (MBConvBlock.conv_path self x)) w.
Proof.
  unfold MBConvBlock.forward, MBConvBlock.skips, MBConvBlock.conv_path,
    MBConvBlock.expansion, MBConvBlock.depthwise, MBConvBlock.squeeze_excite,
    MBConvBlock.projection, mbind, lift, ret, Py.bind.
  destruct (MBConvBlock.id_skip self); cbn [andb];
  repeat (case_result; try reflexivity; try discriminate; try congruence).
Qed.

(** ** Calls of sequential modules *)

Lemma call_seq_nil (x : tensor) : call (Sequential []) x = OK x.
Proof. reflexivity. Qed.

Lemma call_seq_cons (m : nnModule) (ms : list nnModule) (x : tensor) :
  call (Sequential (m :: ms)) x = (y <- call m x ;; call (Sequential ms) y)%py.
Proof. reflexivity. Qed.


















Ltac inv_bind H :=
  repeat match type of H with
         | Py.bind _ _ = OK _ =>
             let a := fresh "a" in
             let Ha := fresh "Ha" in
             apply bind_ok_inv in H; destruct H as (a & Ha & H)
         end.

(** What the constructor of a block leaves in its fields. *)
Lemma MBConvBlock_init_fields (n_inp n_out : Z) (ks stride : int_or_tuple)
    (se : option Q) (id : bool) (ex : Z) (rate : Q)
    (act : option activation) (nt : option NormType) (self : MBConvBlock.t) :
  MBConvBlock.init n_inp n_out ks stride se id ex rate act nt = OK self ->
  MBConvBlock.n_inp self = n_inp /\ MBConvBlock.n_out self = n_out /\
  MBConvBlock.kernel_size self = ks /\ MBConvBlock.stride self = stride /\
  MBConvBlock.se_ratio self = se /\ MBConvBlock.id_skip self = id /\
  MBConvBlock.expand_ratio self = ex /\
  MBConvBlock.has_se self = MBConvBlock.se_active se /\
  DropConnect.init rate = OK (MBConvBlock.drop_conncet self) /\
  (if negb (ex =? 1)
   then exists c, ConvLayerDynamicPadding n_inp (n_inp * ex) (Int 1) (Int 1)
                    None 3 nt true act no_kwargs = OK c /\
                  MBConvBlock.expand_conv self = Some c
   else MBConvBlock.expand_conv self = None) /\
  ConvLayerDynamicPadding (n_inp * ex) (n_inp * ex) ks stride None 3 nt true
    act {| dilation := Int 1; groups := n_inp * ex |}
    = OK (MBConvBlock.depthwise_conv self) /\
  (if MBConvBlock.se_active se
   then exists r c1 c2,
     se = Some r /\
     ConvLayerDynamicPadding (n_inp * ex)
       (MBConvBlock.num_squeezed_channels n_inp r) (Int 1) (Int 1) None 3
       None true act no_kwargs = OK c1 /\
     ConvLayerDynamicPadding (MBConvBlock.num_squeezed_channels n_inp r)
       (n_inp * ex) (Int 1) (Int 1) None 3 None true None no_kwargs = OK c2 /\
     MBConvBlock.squeeze_expand self = Some (Sequential [c1; c2])
   else MBConvBlock.squeeze_expand self = None) /\
  ConvLayerDynamicPadding (n_inp * ex) n_out (Int 1) (Int 1) None 3
    (Some Batch) true None no_kwargs = OK (MBConvBlock.project_conv self).
Proof.
  intros H. unfold MBConvBlock.init in H.
  inv_bind H. injection H as <-. cbn.
  repeat split; try reflexivity; try assumption.
  - destruct (negb (ex =? 1)).
    + inv_bind Ha. injection Ha as <-. eauto.
    + injection Ha as <-. reflexivity.
  - destruct se as [r|]; cbn [MBConvBlock.se_active] in *.
    + destruct (Qlt_bool 0 r && Qle_bool r 1).
      * inv_bind Ha1. injection Ha1 as <-. eauto 10.
      * injection Ha1 as <-. reflexivity.
    + injection Ha1 as <-. reflexivity.
Qed.






Lemma mbind_ok_inv {A B} (m : M A) (k : A -> M B) (w w' : world) (b : B) :
  mbind m k w = OK (b, w') ->
  exists a w1, m w = OK (a, w1) /\ k a w1 = OK (b, w').
Proof.
  unfold mbind. destruct (m w) as [[a w1]|e]; intros H; [eauto|discriminate].
Qed.

Lemma lift_ok_inv {A} (r : result A) (w w' : world) (a : A) :
  lift r w = OK (a, w') -> r = OK a /\ w' = w.
Proof.
  unfold lift. destruct r; intros H; [|discriminate].
  injection H as <- <-. split; reflexivity.
Qed.





Lemma conv_path_train (mode : bool) (self : MBConvBlock.t) (x : tensor) :
  MBConvBlock.conv_path (MBConvBlock.train mode self) x =
  MBConvBlock.conv_path self x.
Proof. reflexivity. Qed.

Lemma ntuple_int_one : ntuple 3 (Int 1) = [1; 1; 1].
Proof. reflexivity. Qed.




(** ** EfficientNet *)




Lemma block_all_3d_train (mode : bool) (self : MBConvBlock.t) :
  block_all_3d (MBConvBlock.train mode self) = block_all_3d self.
Proof. reflexivity. Qed.














Lemma stages_length (a : EfficientNet.args) (rows : list EfficientNet.block_args) :
  forall idx body, EfficientNet.stages a idx rows = OK body ->
                   length body = length rows.
Proof.
  induction rows as [|r rows IH]; intros idx body H.
  - injection H as <-. reflexivity.
  - cbn [EfficientNet.stages] in H. inv_bind H. injection H as <-.
    cbn [length]. f_equal. eapply IH. eassumption.
Qed.

Lemma Dropout_init_ok (p : Q) :
  (0 <= p)%Q -> (p <= 1)%Q -> Dropout_init p = OK (Dropout p).
Proof.
  intros H0 H1. unfold Dropout_init.
  apply Qle_bool_iff in H0, H1. rewrite H0, H1. reflexivity.
Qed.



(** ** ASPP *)


Lemma ConvLayer_conv3 (ni nf k p dl : Z) (bias : option bool)
    (nt : option NormType) (act : option activation) :
  ConvLayer ni nf (Int k) (Int 1) (Some (Int p)) bias 3 nt true act
    {| dilation := Int dl; groups := 1 |} = OK (conv3 ni nf k p dl bias nt act).
Proof. reflexivity. Qed.

Lemma ConvLayer_pointwise (ni nf : Z) (bias : option bool)
    (nt : option NormType) (act : option activation) :
  ConvLayer ni nf (Int 1) (Int 1) None bias 3 nt true act no_kwargs
  = OK (conv3 ni nf 1 0 1 bias nt act).
Proof. reflexivity. Qed.



Lemma mapM_map {A B} (f : A -> result B) (g : A -> B) (l : list A) :
  (forall a, In a l -> f a = OK (g a)) -> mapM f l = OK (map g l).
Proof.
  induction l as [|a l IH]; intros H; [reflexivity|].
  cbn [mapM map]. rewrite (H a (or_introl eq_refl)), IH; [reflexivity|].
  intros a' Ha'. apply H. right. exact Ha'.
Qed.








Lemma ASPP_init_eq (ni : Z) (dilations : list Z) (nf : Z)
    (nt : option NormType) (act : option activation) (ps : Q) :
  (0 <= ps)%Q -> (ps <= 1)%Q ->
  let layers :=
    ASPP.Conv (conv3 ni nf 1 0 1 (Some false) nt act)
    :: map (fun d => ASPP.Conv (conv3 ni nf 3 d d None nt act)) dilations
    ++ [ASPP.Pooling [Layer (AdaptiveAvgPool3d 1);
                      conv3 ni nf 1 0 1 (Some false) None act]] in
  ASPP.init ni dilations nf nt act ps =
  OK {| ASPP.layers := layers;
        ASPP.project :=
          Sequential [conv3 (Z.of_nat (length layers) * nf) nf 1 0 1
                        (Some false) nt act;
                      Layer (Dropout ps)] |}.
Proof.
  intros H0 H1 layers. unfold ASPP.init, ASPPPooling.init.
  rewrite !ConvLayer_pointwise. cbn [Py.bind].
  rewrite (mapM_map _ (fun d => conv3 ni nf 3 d d None nt act)).
  2:{ intros d _. apply ConvLayer_conv3. }
  cbn [Py.bind]. rewrite ConvLayer_pointwise. cbn [Py.bind].
  rewrite (Dropout_init_ok _ H0 H1). cbn [Py.bind map].
  rewrite map_map. reflexivity.
Qed.



(** ** Hooks *)

Lemma nnModule_nested_ind (P : nnModule -> Prop) :
  (forall p, P (Layer p)) ->
  (forall name f, P (Opaque name f)) ->
  (forall ms, Forall P ms -> P (Sequential ms)) ->
  forall m, P m.
Proof.
  intros HL HO HS. fix IH 1. intros [p|name f|ms].
  - apply HL.
  - apply HO.
  - apply HS. induction ms as [|m ms IHms]; constructor.
    + apply IH.
    + exact IHms.
Qed.

Lemma fire_hooks (p : path) (y z : tensor) (w w' : world) :
  Hooks.fire p y w = OK (z, w') -> z = y /\ hooks w' = hooks w /\ rng w' = rng w.
Proof.
  unfold Hooks.fire. destruct (existsb _ _); intros [= <- <-]; repeat split.
Qed.

(** Calling a module of the encoder leaves the registered hooks and the
    random-number state as they are. *)
Lemma call_at_frame (m : nnModule) :
  forall (p : path) (x y : tensor) (w w' : world),
    Hooks.call_at p m x w = OK (y, w') ->
    hooks w' = hooks w /\ rng w' = rng w.
Proof.
  induction m as [q|name f|ms IH] using nnModule_nested_ind;
    intros p x y w w' H; cbn [Hooks.call_at] in H;
    apply mbind_ok_inv in H; destruct H as (z & w1 & Hz & Hf);
    apply fire_hooks in Hf; destruct Hf as (_ & Hh & Hr).
  - apply lift_ok_inv in Hz. destruct Hz as [_ ->]. split; assumption.
  - apply lift_ok_inv in Hz. destruct Hz as [_ ->]. split; assumption.
  - rewrite Hh, Hr. clear Hh Hr w'.
    revert x w Hz. generalize 0%nat as j.
    induction IH as [|m ms Hm _ IHms]; intros j x w Hz.
    + injection Hz as <- <-. split; reflexivity.
    + apply mbind_ok_inv in Hz. destruct Hz as (x1 & w2 & H1 & H2).
      apply Hm in H1. apply IHms in H2. destruct H1, H2. split; congruence.
Qed.

Lemma children_outputs_frame (ms : list nnModule) :
  forall (j : nat) (x : tensor) (outs : list tensor) (w w' : world),
    Hooks.children_outputs ms j x w = OK (outs, w') ->
    hooks w' = hooks w /\ rng w' = rng w.
Proof.
  induction ms as [|m ms IH]; intros j x outs w w' H.
  - injection H as <- <-. split; reflexivity.
  - cbn [Hooks.children_outputs] in H.
    apply mbind_ok_inv in H. destruct H as (y & w1 & H1 & H).
    apply mbind_ok_inv in H. destruct H as (rest & w2 & H2 & H).
    injection H as <- <-.
    apply call_at_frame in H1. apply IH in H2. destruct H1, H2.
    split; congruence.
Qed.

(** ** DynamicDeepLab *)







(** The shapes the dummy forward pass finds in the notebook's example. *)
Example model_sizes_r3d :
  Hooks.model_sizes r3d_18_body [20; 64; 64] world0 =
  OK ([[1; 64; 20; 32; 32]; [1; 64; 20; 32; 32]; [1; 128; 10; 16; 16];
       [1; 256; 5; 8; 8]; [1; 512; 3; 4; 4]], world0).
Proof. vm_compute. reflexivity. Qed.

(** In the notebook's example the hooks sit on the two blocks of the
    third child of the encoder, and each has stored a tensor of 128
    channels. *)
Example deeplab_r3d_sfs :
  match DynamicDeepLab.init r3d_18_body 2 [20; 64; 64] (Some ReLU) (Some Batch) world0 with
  | OK (m, w) => DynamicDeepLab.sfs m = [[2; 0]; [2; 1]]%nat /\ hooks w = [[2; 0]; [2; 1]]%nat
                 /\ map fst (stored w) = [[2; 1]; [2; 0]]%nat
                 /\ map (fun e => shape_of (snd e)) (stored w) = [[1; 128; 10; 16; 16]; [1; 128; 10; 16; 16]]
  | Raise _ => False
  end.
Proof. vm_compute. repeat split. Qed.

(** The two-dimensional ResNet passes the shape inspection: its
    activations change size four times. *)
Example model_sizes_resnet18 :
  (sizes <- Hooks.model_sizes resnet18_body [64; 64] ;;
   idxs <- lift (Hooks._get_sz_change_idxs sizes) ;;
   ret (sizes, idxs))%M world0
  = OK (([[1; 64; 32; 32]; [1; 64; 32; 32]; [1; 64; 32; 32]; [1; 64; 16; 16];
          [1; 64; 16; 16]; [1; 128; 8; 8]; [1; 256; 4; 4]; [1; 512; 2; 2]],
         [2; 4; 5; 6]%nat), world0).
Proof. vm_compute. reflexivity. Qed.

Lemma index_ok_inv {A} (l : list A) (i : nat) (a : A) :
  index l i = OK a -> nth_error l i = Some a.
Proof.
  unfold index. destruct (nth_error l i); intros H; [congruence|discriminate].
Qed.

Lemma iterate_ok_inv (m : nnModule) (ms : list nnModule) :
  iterate m = OK ms -> m = Sequential ms.
Proof. destruct m; cbn; intros H; try discriminate. congruence. Qed.

Lemma get_stored_frame (hs : Hooks.t) (ts : list tensor) (w w' : world) :
  Hooks.get_stored hs w = OK (ts, w') -> w' = w.
Proof.
  unfold Hooks.get_stored. destruct (mapM _ hs); intros H; [|discriminate].
  congruence.
Qed.

Lemma DeepLabDecoder_init_eq (ni low : Z) (hook : Hooks.t) (n_out : Z)
    (nt : option NormType) (act : option activation) :
  DeepLabDecoder.init ni low hook n_out nt act (1 # 2) =
  OK {| DeepLabDecoder.hook := hook;
        DeepLabDecoder.low_lvl_conv :=
          conv3 low (low / 2) 1 0 1 (Some false) nt act;
        DeepLabDecoder.last_conv :=
          Sequential [ conv3 (ni + low / 2) ni 3 1 1 (Some false) nt act;
                       Layer (Dropout (1 # 2));
                       conv3 ni ni 3 1 1 (Some false) nt act;
                       Layer (Dropout ((1 # 2) / 5));
                       Layer (Conv3d ni n_out [1; 1; 1] [1; 1; 1] [0; 0; 0]
                                [1; 1; 1] 1 true) ] |}.
Proof. reflexivity. Qed.


Lemma keeps_shape_seq (ms : list nnModule) :
  Forall keeps_shape ms -> keeps_shape (Sequential ms).
Proof.
  induction 1 as [|m ms Hm _ IH]; intros x y H.
  - rewrite call_seq_nil in H. injection H as <-. reflexivity.
  - rewrite call_seq_cons in H. apply bind_ok_inv in H.
    destruct H as (x1 & H1 & H). apply IH in H. apply Hm in H1. congruence.
Qed.

Lemma keeps_shape_act (a : activation) : keeps_shape (Layer (Act a)).
Proof.
  intros x y H. cbn [call] in H. unfold call_prim in H.
  cbn [prim_shape bind] in H. injection H as <-. reflexivity.
Qed.

Lemma keeps_shape_norm (ndim : nat) (nf : Z) :
  keeps_shape (Layer (BatchNormNd ndim nf)) /\
  keeps_shape (Layer (InstanceNormNd ndim nf)).
Proof.
  split; intros x y H; cbn [call] in H; unfold call_prim in H;
    apply bind_ok_inv in H; destruct H as (s & Hs & H);
    injection H as <-; cbn [shape_of]; cbn [prim_shape] in Hs;
    destruct (shape_of x) as [|b [|c sp]]; try discriminate;
    destruct (_ && _); try discriminate; congruence.
Qed.

Lemma act_bn_keeps_shape (ndim : nat) (nf : Z) (nt : option NormType)
    (b1 : bool) (act : option activation) :
  keeps_shape (Sequential (act_bn ndim nf nt b1 act)).
Proof.
  apply keeps_shape_seq. unfold act_bn.
  assert (H : Forall keeps_shape
                (match act with Some a => [Layer (Act a)] | None => [] end
                 ++ (if is_bn nt then [Layer (BatchNormNd ndim nf)] else [])
                 ++ (if is_inn nt then [Layer (InstanceNormNd ndim nf)] else []))).
  { apply Forall_app; split; [|apply Forall_app; split].
    - destruct act; repeat constructor. apply keeps_shape_act.
    - destruct (is_bn nt); repeat constructor. apply keeps_shape_norm.
    - destruct (is_inn nt); repeat constructor. apply keeps_shape_norm. }
  destruct b1; [apply Forall_rev|]; exact H.
Qed.

Lemma conv_spatial_length (i k s p d out : list Z) :
  conv_spatial i k s p d = OK out -> length out = length i.
Proof.
  revert k s p d out.
  induction i as [|i0 i IH]; intros [|k0 k] [|s0 s] [|p0 p] [|d0 d] out H;
    cbn [conv_spatial] in H; try discriminate.
  - injection H as <-. reflexivity.
  - destruct (conv_axis_ok i0 k0 s0 p0 d0); [|discriminate].
    apply bind_ok_inv in H. destruct H as (rest & Hrest & H).
    injection H as <-. cbn [length]. f_equal. eapply IH. eassumption.
Qed.

(** A convolution layer in three dimensions returns five axes, the
    second of them its number of filters. *)
Lemma conv3_output (ni nf k p dl : Z) (bias : option bool)
    (nt : option NormType) (act : option activation) (x y : tensor) :
  call (conv3 ni nf k p dl bias nt act) x = OK y ->
  exists b d h w, shape_of y = [b; nf; d; h; w].
Proof.
  unfold conv3. intros H. rewrite call_seq_cons in H.
  apply bind_ok_inv in H. destruct H as (y1 & H1 & H).
  apply act_bn_keeps_shape in H. rewrite H. clear H.
  cbn [call] in H1. unfold call_prim in H1.
  apply bind_ok_inv in H1. destruct H1 as (s & Hs & H1).
  injection H1 as <-. cbn [shape_of]. cbn [prim_shape] in Hs.
  destruct (shape_of x) as [|b [|c sp]]; try discriminate.
  destruct (_ && _) eqn:E; [|discriminate].
  apply bind_ok_inv in Hs. destruct Hs as (out & Hout & Hs).
  injection Hs as <-.
  rewrite !andb_true_iff in E. destruct E as [[[[E _] _] _] _].
  apply Nat.eqb_eq in E. apply conv_spatial_length in Hout. rewrite E in Hout.
  destruct out as [|d [|h [|w [|? ?]]]]; try discriminate.
  exists b, d, h, w. reflexivity.
Qed.

Lemma list_eqb_true (a b : list Z) : list_eqb a b = true -> a = b.
Proof.
  unfold list_eqb. destruct (list_eq_dec Z.eq_dec a b); [auto|discriminate].
Qed.

(** Two tensors that [torch.cat] joins along the channel axis agree on
    the other axes; the channels add up. *)
Lemma cat1_pair (x s c : tensor) (b cs d h w : Z) :
  cat1 [x; s] = OK c -> shape_of s = [b; cs; d; h; w] ->
  exists cx, shape_of x = [b; cx; d; h; w] /\
             shape_of c = [b; cx + cs; d; h; w] /\
             data c = ECat 1 [data x; data s].
Proof.
  unfold cat1. intros H Hs. apply bind_ok_inv in H.
  destruct H as (sc & Hsc & H). injection H as <-. cbn [shape_of data map].
  cbn [map cat1_shape] in Hsc. rewrite Hs in Hsc.
  destruct (shape_of x) as [|b' [|cx sp]]; try discriminate.
  destruct ((b' =? b) && list_eqb sp [d; h; w]) eqn:E; [|discriminate].
  apply andb_true_iff in E. destruct E as [Eb Esp].
  apply Z.eqb_eq in Eb. apply list_eqb_true in Esp. subst b' sp.
  injection Hsc as <-. exists cx. repeat split.
Qed.

(** A convolution of stride one with [2p = dl (k - 1)], when it
    succeeds, returns the spatial size it was given. *)
Lemma conv_same_inv (ni nf k p dl g : Z) (bias : bool) (x y : tensor)
    (b c d h w : Z) :
  call (Layer (ConvNd 3 ni nf [k; k; k] [1; 1; 1] [p; p; p] [dl; dl; dl]
                 g bias)) x = OK y ->
  shape_of x = [b; c; d; h; w] -> 2 * p = dl * (k - 1) ->
  shape_of y = [b; nf; d; h; w].
Proof.
  intros H Hx Hp. cbn [call] in H. unfold call_prim in H.
  apply bind_ok_inv in H. destruct H as (s & Hs & H).
  injection H as <-. cbn [shape_of]. rewrite Hx in Hs.
  cbn [prim_shape] in Hs.
  destruct (_ && _); [|discriminate].
  cbn [conv_spatial] in Hs.
  repeat match type of Hs with
         | context [conv_axis_ok ?i ?k ?s ?p ?d] =>
             destruct (conv_axis_ok i k s p d); [|discriminate]
         end.
  cbn [bind] in Hs. injection Hs as <-.
  unfold conv_out. rewrite !Z.div_1_r.
  repeat (f_equal; try lia).
Qed.

Lemma conv3_same_inv (ni nf k p dl : Z) (bias : option bool)
    (nt : option NormType) (act : option activation) (x y : tensor)
    (b c d h w : Z) :
  call (conv3 ni nf k p dl bias nt act) x = OK y ->
  shape_of x = [b; c; d; h; w] -> 2 * p = dl * (k - 1) ->
  shape_of y = [b; nf; d; h; w].
Proof.
  unfold conv3. intros H Hx Hp. rewrite call_seq_cons in H.
  apply bind_ok_inv in H. destruct H as (y1 & H1 & H).
  apply act_bn_keeps_shape in H. rewrite H.
  eapply conv_same_inv; eassumption.
Qed.

Lemma keeps_shape_dropout (p : Q) : keeps_shape (Layer (Dropout p)).
Proof.
  intros x y H. cbn [call] in H. unfold call_prim in H.
  cbn [prim_shape bind] in H. injection H as <-. reflexivity.
Qed.

(** The last convolutions of the decoder return [n_out] channels at the
    spatial size of what they are given. *)
Lemma last_conv_output (ni low n_out : Z) (hook : Hooks.t)
    (nt : option NormType) (act : option activation)
    (self : DeepLabDecoder.t) (c y : tensor) (b cc d h w : Z) :
  DeepLabDecoder.init ni low hook n_out nt act (1 # 2) = OK self ->
  call (DeepLabDecoder.last_conv self) c = OK y ->
  shape_of c = [b; cc; d; h; w] ->
  shape_of y = [b; n_out; d; h; w].
Proof.
  rewrite DeepLabDecoder_init_eq. intros [= <-] H Hc.
  cbn [DeepLabDecoder.last_conv] in H.
  rewrite call_seq_cons in H. apply bind_ok_inv in H.
  destruct H as (y1 & H1 & H).
  eapply conv3_same_inv in H1; [|eassumption|lia].
  rewrite call_seq_cons in H. apply bind_ok_inv in H.
  destruct H as (y2 & H2 & H). apply keeps_shape_dropout in H2.
  rewrite H1 in H2.
  rewrite call_seq_cons in H. apply bind_ok_inv in H.
  destruct H as (y3 & H3 & H).
  eapply conv3_same_inv in H3; [|eassumption|lia].
  rewrite call_seq_cons in H. apply bind_ok_inv in H.
  destruct H as (y4 & H4 & H). apply keeps_shape_dropout in H4.
  rewrite H3 in H4.
  rewrite call_seq_cons in H. apply bind_ok_inv in H.
  destruct H as (y5 & H5 & H). rewrite call_seq_nil in H. injection H as <-.
  eapply conv_same_inv in H5; [|eassumption|lia]. exact H5.
Qed.

Lemma DeepLabDecoder_forward_inv (ni low n_out : Z) (hook : Hooks.t)
    (nt : option NormType) (act : option activation)
    (self : DeepLabDecoder.t) (x y : tensor) (wd wd' : world) :
  DeepLabDecoder.init ni low hook n_out nt act (1 # 2) = OK self ->
  DeepLabDecoder.forward self x wd = OK (y, wd') ->
  wd' = wd /\ decoded self (low / 2) n_out x wd y.
Proof.
  intros Hinit. unfold DeepLabDecoder.forward. intros H.
  apply mbind_ok_inv in H. destruct H as (stored & w1 & Hst & H).
  pose proof (get_stored_frame _ _ _ _ Hst) as ->.
  apply mbind_ok_inv in H. destruct H as (s & w2 & Hs & H).
  apply lift_ok_inv in Hs. destruct Hs as [Hs ->].
  apply bind_ok_inv in Hs. destruct Hs as (summed & Hsum & Hs).
  apply mbind_ok_inv in H. destruct H as (x' & w3 & Hx' & H).
  apply lift_ok_inv in H. destruct H as [H ->].
  apply bind_ok_inv in H. destruct H as (c & Hc & Hy).
  assert (Hw3 : w3 = wd /\
                if list_eqb (last3 (shape_of s)) (last3 (shape_of x))
                then x' = x
                else interpolate x (last3 (shape_of s)) nearest = OK x').
  { destruct (list_eqb (last3 (shape_of s)) (last3 (shape_of x)));
      cbn [negb] in Hx'.
    - injection Hx' as <- <-. split; reflexivity.
    - apply lift_ok_inv in Hx'. destruct Hx' as [? ->].
      split; [reflexivity|assumption]. }
  destruct Hw3 as [-> Hx''].
  split; [reflexivity|].
  (* the shapes: half the channels, then the sum of the channels *)
  assert (Hsh : exists b d h w, shape_of s = [b; low / 2; d; h; w]).
  { pose proof Hinit as E. rewrite DeepLabDecoder_init_eq in E.
    injection E as <-. cbn [DeepLabDecoder.low_lvl_conv] in Hs.
    eapply conv3_output. exact Hs. }
  destruct Hsh as (b & d & h & w & Hsh).
  destruct (cat1_pair _ _ _ _ _ _ _ _ Hc Hsh) as (cx & Hxs & Hcs & Hcd).
  exists stored, summed, s, x', c, b, cx, d, h, w.
  repeat split; try assumption.
  eapply last_conv_output; eassumption.
Qed.



(** The steps of the constructor of [DynamicDeepLab], one by one. *)
Lemma DynamicDeepLab_init_steps (encoder : Hooks.encoder) (n_out : Z)
    (img_size : list Z) (act : option activation) (nt : option NormType)
    (w w' : world) (m : DynamicDeepLab.t) :
  DynamicDeepLab.init encoder n_out img_size act nt w = OK (m, w') ->
  exists sizes w1 idxs i1 children x0 w2 ni aspp x1 low decoder x2,
    Hooks.model_sizes encoder img_size w = OK (sizes, w1) /\
    Hooks._get_sz_change_idxs sizes = OK idxs /\
    nth_error idxs 1 = Some i1 /\
    nth_error (Hooks.body encoder) i1 = Some (Sequential children) /\
    Hooks.hook_outputs [i1] (Sequential children) w1
      = OK (DynamicDeepLab.sfs m,
            {| rng := rng w1; hooks := DynamicDeepLab.sfs m ++ hooks w1;
               stored := stored w1 |}) /\
    Hooks.dummy_eval encoder img_size
      {| rng := rng w1; hooks := DynamicDeepLab.sfs m ++ hooks w1;
         stored := stored w1 |} = OK (x0, w2) /\
    (sz <- Py.last sizes ;; index sz 1)%py = OK ni /\
    ASPP.init ni (if 512 <? ni then [1; 12; 24; 36] else [1; 6; 12; 18])
      (ni / 4) nt act (1 # 2) = OK aspp /\
    ASPP.forward aspp x0 = OK x1 /\
    (sz <- index sizes i1 ;; index sz 1)%py = OK low /\
    DeepLabDecoder.init (ni / 4) low (DynamicDeepLab.sfs m) n_out nt act
      (1 # 2) = OK decoder /\
    DeepLabDecoder.forward decoder x1 w2 = OK (x2, w') /\
    DynamicDeepLab.layers m =
      [ DynamicDeepLab.LEncoder encoder; DynamicDeepLab.LASPP aspp;
        DynamicDeepLab.LDecoder decoder; DynamicDeepLab.LResizeToOrig ].
Proof.
  unfold DynamicDeepLab.init. intros H.
  apply mbind_ok_inv in H. destruct H as (sizes & w1 & Hsizes & H).
  apply mbind_ok_inv in H. destruct H as (idxs & w2 & Hidxs & H).
  apply lift_ok_inv in Hidxs. destruct Hidxs as [Hidxs ->].
  apply mbind_ok_inv in H. destruct H as (i1 & w2 & Hi1 & H).
  apply lift_ok_inv in Hi1. destruct Hi1 as [Hi1 ->].
  apply mbind_ok_inv in H. destruct H as (hooked & w2 & Hhk & H).
  apply lift_ok_inv in Hhk. destruct Hhk as [Hhk ->].
  apply mbind_ok_inv in H. destruct H as (sfs & w2 & Hsfs & H).
  pose proof Hsfs as Hsfs'. unfold Hooks.hook_outputs in Hsfs'.
  apply mbind_ok_inv in Hsfs'. destruct Hsfs' as (children & w3 & Hit & Hsfs').
  apply lift_ok_inv in Hit. destruct Hit as [Hit ->].
  apply iterate_ok_inv in Hit. subst hooked.
  injection Hsfs' as Es Ew. subst w2.
  apply mbind_ok_inv in H. destruct H as (x0 & w3 & Hx0 & H).
  apply mbind_ok_inv in H. destruct H as (ni & w4 & Hni & H).
  apply lift_ok_inv in Hni. destruct Hni as [Hni ->].
  apply mbind_ok_inv in H. destruct H as (aspp & w4 & Haspp & H).
  apply lift_ok_inv in Haspp. destruct Haspp as [Haspp ->].
  apply mbind_ok_inv in H. destruct H as (x1 & w4 & Hx1 & H).
  apply lift_ok_inv in Hx1. destruct Hx1 as [Hx1 ->].
  apply mbind_ok_inv in H. destruct H as (low & w4 & Hlow & H).
  apply lift_ok_inv in Hlow. destruct Hlow as [Hlow ->].
  apply mbind_ok_inv in H. destruct H as (decoder & w4 & Hdec & H).
  apply lift_ok_inv in Hdec. destruct Hdec as [Hdec ->].
  apply mbind_ok_inv in H. destruct H as (x2 & w4 & Hx2 & H).
  injection H as <- <-. cbn [DynamicDeepLab.sfs DynamicDeepLab.layers].
  exists sizes, w1, idxs, i1, children, x0, w3, ni, aspp, x1, low, decoder, x2.
  rewrite <- Es in *.
  repeat split; try assumption; try (apply index_ok_inv; assumption).
Qed.


(** C1 (amended).  Whenever the constructor of [DynamicDeepLab] returns,
    it has inspected the shapes of a dummy forward pass, taken the
    second index at which the feature size changes, and registered one
    forward hook on every sub-module of the encoder layer at that index;
    the decoder holds those hooks.  [DeepLabDecoder.forward] sums what
    the hooks stored, halves the channel count of the sum with a
    convolution of kernel one, resizes its input to the spatial size of
    the result whenever the two differ, concatenates the two along the
    channel axis, where the channel counts add up, and applies the final
    convolutions, which return [n_out] channels at that spatial size. *)
Theorem DynamicDeepLab_splices_encoder (encoder : Hooks.encoder) (n_out : Z)
    (img_size : list Z) (act : option activation) (nt : option NormType)
    (w w' : world) (m : DynamicDeepLab.t) :
  DynamicDeepLab.init encoder n_out img_size act nt w = OK (m, w') ->
  spliced encoder n_out img_size act nt w m w'.
Proof.
  intros H. apply DynamicDeepLab_init_steps in H.
  destruct H as (sizes & w1 & idxs & i1 & children & x0 & w2 & ni & aspp &
                 x1 & low & decoder & x2 &
                 Hsizes & Hidxs & Hi1 & Hhk & Hsfs & Hx0 & Hni & Haspp & Hx1 &
                 Hlow & Hdec & Hx2 & Hl).
  (* the hooks are the paths of the children of the layer *)
  assert (Es : DynamicDeepLab.sfs m
               = map (fun j => [i1; j]) (seq 0 (length children))).
  { unfold Hooks.hook_outputs, mbind in Hsfs. cbn [iterate lift] in Hsfs.
    injection Hsfs as <- _. reflexivity. }
  (* they stay registered until the constructor returns *)
  assert (Eh : hooks w' = DynamicDeepLab.sfs m ++ hooks w).
  { eapply DeepLabDecoder_forward_inv in Hx2; [|exact Hdec].
    destruct Hx2 as [-> _].
    unfold Hooks.dummy_eval, Hooks.call_encoder in Hx0.
    apply call_at_frame in Hx0. destruct Hx0 as [-> _]. cbn [hooks].
    unfold Hooks.model_sizes in Hsizes.
    apply mbind_ok_inv in Hsizes. destruct Hsizes as (outs & w5 & Houts & Hs).
    injection Hs as _ <-.
    apply children_outputs_frame in Houts. destruct Houts as [-> _].
    reflexivity. }
  pose proof Hdec as Ed.
  rewrite DeepLabDecoder_init_eq in Ed. injection Ed as Ed.
  exists sizes, w1, idxs, i1, children, ni, aspp, decoder, low.
  split; [exact Hsizes|]. split; [exact Hidxs|]. split; [exact Hi1|].
  split; [exact Hhk|]. split; [exact Es|]. split; [exact Eh|].
  split; [exact Hl|]. split; [exact Hni|]. split; [exact Haspp|].
  split; [exact Hlow|]. split; [exact Hdec|].
  split; [rewrite <- Ed; reflexivity|].
  split; [rewrite <- Ed; reflexivity|].
  intros x wd y wd'. eapply DeepLabDecoder_forward_inv. exact Hdec.
Qed.

Lemma DynamicDeepLab_splices_encoder_witness :
  exists m w',
    DynamicDeepLab.init r3d_18_body 2 [20; 64; 64] (Some ReLU) (Some Batch)
      world0 = OK (m, w') /\
    spliced r3d_18_body 2 [20; 64; 64] (Some ReLU) (Some Batch) world0 m w'.
Proof.
  destruct (DynamicDeepLab.init r3d_18_body 2 [20; 64; 64] (Some ReLU)
              (Some Batch) world0) as [[m w']|e] eqn:E.
  - exists m, w'. split; [reflexivity|].
    exact (DynamicDeepLab_splices_encoder _ _ _ _ _ _ _ _ E).
  - vm_compute in E. discriminate E.
Defined.

(** C1, as stated, fails: construction does not work for every encoder.
    An encoder whose activations change size once has no second index; a
    two-dimensional encoder passes the inspection and fails in the
    three-dimensional head; and where construction works the hooks sit
    on the sub-modules of the layer, not on the layer. *)
Lemma DynamicDeepLab_not_every_encoder :
  DynamicDeepLab.init r3d_18_cut 2 [20; 64; 64] (Some ReLU) (Some Batch) world0
    = Raise IndexError /\
  DynamicDeepLab.init resnet18_body 2 [64; 64] (Some ReLU) (Some Batch) world0
    = Raise RuntimeError /\
  match DynamicDeepLab.init r3d_18_body 2 [20; 64; 64] (Some ReLU) (Some Batch)
          world0 with
  | OK (_, w') => hooks w' = [[2; 0]; [2; 1]]%nat /\ ~ In [2%nat] (hooks w')
  | Raise _ => False
  end.
Proof.
  split; [vm_compute; reflexivity|].
  split; [vm_compute; reflexivity|].
  vm_compute. split; [reflexivity|].
  intros [E|[E|[]]]; discriminate E.
Qed.










(** ** The examples of the notebooks

    The shapes the notebooks record for their example cells, computed in
    the model. *)

Example notebook_ConvLayerDynamicPadding :
  (m <- ConvLayerDynamicPadding 3 64 (Tuple [2; 7; 5]) (Int 1) None 3
          (Some Batch) true (Some ReLU) no_kwargs ;;
   y <- call m (input [1; 3; 10; 10; 10]) ;;
   OK (shape_of y))%py = OK [1; 64; 10; 10; 10].
Proof. vm_compute. reflexivity. Qed.

Example notebook_MBConvBlock :
  (blk <- lift (MBConvBlock.init 80 112 (Int 4) (Int 1) (Some (1 # 4)) true 6
                  (2 # 10) (Some SiLU) (Some Batch)) ;;
   y <- MBConvBlock.forward blk (input [1; 80; 10; 14; 14]) ;;
   ret (shape_of y))%M world0 = OK ([1; 112; 10; 14; 14], world0).
Proof. vm_compute. reflexivity. Qed.

Example notebook_EfficientNet :
  (net <- lift (EfficientNet.init
                  {| EfficientNet.ni := 3; EfficientNet.num_classes := 2;
                     EfficientNet.width_coefficient := 1;
                     EfficientNet.depth_coefficient := 1;
                     EfficientNet.dropout_rate := 2 # 10;
                     EfficientNet.drop_connect_rate := 2 # 10;
                     EfficientNet.depth_divisor := 8;
                     EfficientNet.min_depth := None;
                     EfficientNet.act_cls := Some SiLU;
                     EfficientNet.norm_type := Some Batch |}) ;;
   y <- EfficientNet.forward net (input [1; 3; 10; 224; 224]) ;;
   ret (shape_of y))%M world0
  = OK ([1; 2], {| rng := 9; hooks := []; stored := [] |}).
Proof. vm_compute. reflexivity. Qed.

Example notebook_ASPP :
  (aspp <- ASPP.init 2048 [1; 6; 12; 18] 256 (Some Batch) (Some ReLU) (1 # 2) ;;
   y <- ASPP.forward aspp (input [10; 2048; 1; 3; 3]) ;;
   OK (shape_of y))%py = OK [10; 256; 1; 3; 3].
Proof. vm_compute. reflexivity. Qed.

(* ================================================================== *)
(** * Further properties of the code *)
(* ================================================================== *)

(** ** Dynamic padding with a stride *)


(** [ceil_div i s] is the least [q] with [i <= q * s]. *)
Lemma ceil_div_spec (i s : Z) :
  1 <= s -> i <= ceil_div i s * s /\ (ceil_div i s - 1) * s < i.
Proof.
  intros Hs. unfold ceil_div.
  pose proof (Z.div_mod (i + s - 1) s ltac:(lia)) as E.
  pose proof (Z.mod_pos_bound (i + s - 1) s ltac:(lia)) as B.
  nia.
Qed.




(** ** DropConnect at the edges *)

Lemma DropConnect_init_inv (p : Q) (self : DropConnect.t) :
  DropConnect.init p = OK self ->
  (0 <= p)%Q /\ (p <= 1)%Q /\
  self = {| DropConnect.keep_prob := 1 - p; DropConnect.training := true |}.
Proof.
  unfold DropConnect.init. intros H.
  destruct (Qle_bool 0 p) eqn:E0; destruct (Qle_bool p 1) eqn:E1;
    cbn [andb] in H; try discriminate.
  injection H as <-. repeat split; apply Qle_bool_iff; assumption.
Qed.

(** X2.  [DropConnect(0)] drops nothing: in training mode too, every
    element of the output of a five-dimensional input is the element of
    the input, for every draw of the random tensor. *)
Theorem DropConnect_zero_rate_identity (p : Q) (self : DropConnect.t)
    (x : tensor) (N C D H W : Z) (w : world) :
  DropConnect.init p = OK self -> p == 0 ->
  shape_of x = [N; C; D; H; W] ->
  exists y w',
    DropConnect.forward (DropConnect.train true self) x w = OK (y, w') /\
    shape_of y = shape_of x /\
    forall I, Denote.uniform I ->
    forall idx, Denote.in_range [N; C; D; H; W] idx ->
      Denote.denote I (data y) idx == Denote.denote I (data x) idx.
Proof.
  intros Hinit Hp Hx.
  apply DropConnect_init_inv in Hinit. destruct Hinit as (_ & _ & ->).
  unfold DropConnect.forward, DropConnect.train.
  cbn [DropConnect.training DropConnect.keep_prob negb].
  unfold mbind, lift, size, rand, mul, floor_, add_scalar, div_scalar.
  cbn [shape_of data]. rewrite Hx. cbn [index nth_error].
  rewrite broadcast_mask. cbn [Py.bind].
  eexists _, _. split; [reflexivity|]. cbn [shape_of data].
  split; [reflexivity|].
  intros I HI [|n [|c [|d [|h [|v [|? ?]]]]]] Hin;
    try (cbn [Denote.in_range] in Hin; tauto).
  assert (Hn : 0 <= n < N) by (cbn [Denote.in_range] in Hin; tauto).
  destruct (HI (rng w) [n; 0; 0; 0; 0]) as [Hu0 Hu1].
  cbn [Denote.denote].
  rewrite bidx5 by assumption. rewrite bidx_mask by assumption.
  set (u := Denote.i_rand I (rng w) [n; 0; 0; 0; 0]) in *.
  assert (Hm : Qfloor (1 - p + u) = 1).
  { destruct (mask_is_bit (1 - p) u) as [Hm|Hm]; try assumption; try lra.
    pose proof (Qlt_floor (1 - p + u)) as Hlt. rewrite Hm in Hlt.
    change (inject_Z (0 + 1)) with 1%Q in Hlt. lra. }
  rewrite Hm. change (inject_Z 1) with 1%Q. rewrite Hp. field.
Qed.

Lemma DropConnect_zero_rate_identity_witness :
  exists y w',
    DropConnect.forward
      (DropConnect.train true
         {| DropConnect.keep_prob := 1 - 0; DropConnect.training := true |})
      (input [2; 3; 4; 5; 6]) world0 = OK (y, w') /\
    shape_of y = shape_of (input [2; 3; 4; 5; 6]) /\
    forall I, Denote.uniform I ->
    forall idx, Denote.in_range [2; 3; 4; 5; 6] idx ->
      Denote.denote I (data y) idx
      == Denote.denote I (data (input [2; 3; 4; 5; 6])) idx.
Proof.
  apply (DropConnect_zero_rate_identity 0 _ (input [2; 3; 4; 5; 6]) 2 3 4 5 6);
    reflexivity.
Defined.

(** X3.  [DropConnect] is written for five-dimensional inputs.  In
    training mode a tensor without axes has no [size(0)], which raises
    [IndexError]; a four-dimensional input [(N, C, H, W)] is broadcast
    against the mask of shape [(N, 1, 1, 1, 1)], so the output has the
    five axes [(N, N, C, H, W)].  In evaluation mode any input is
    returned as it is. *)
Theorem DropConnect_other_ranks (self : DropConnect.t) (x : tensor)
    (w : world) :
  (DropConnect.training self = true -> shape_of x = [] ->
   DropConnect.forward self x w = Raise IndexError) /\
  (forall N C H W, DropConnect.training self = true ->
     shape_of x = [N; C; H; W] ->
     exists y w', DropConnect.forward self x w = OK (y, w') /\
                  shape_of y = [N; N; C; H; W]) /\
  (DropConnect.training self = false ->
   DropConnect.forward self x w = OK (x, w)).
Proof.
  split; [|split].
  - intros Ht Hx. unfold DropConnect.forward. rewrite Ht. cbn [negb].
    unfold mbind, lift, size. rewrite Hx. reflexivity.
  - intros N C H W Ht Hx. unfold DropConnect.forward. rewrite Ht. cbn [negb].
    unfold mbind, lift, size, rand, mul, floor_, add_scalar, div_scalar.
    cbn [shape_of data]. rewrite Hx. cbn [index nth_error].
    assert (Hb : broadcast [N; C; H; W] [N; 1; 1; 1; 1] = OK [N; N; C; H; W]).
    { unfold broadcast. cbn [rev app broadcast_rev].
      destruct (W =? 1) eqn:EW; destruct (H =? 1) eqn:EH;
        destruct (C =? 1) eqn:EC; destruct (N =? 1) eqn:EN;
        rewrite ?Z.eqb_eq in *; subst; cbn; reflexivity. }
    rewrite Hb. cbn [Py.bind]. eexists _, _. split; reflexivity.
  - apply forward_eval.
Qed.

(** ** MBConvBlock: output shape and random draws *)



Lemma DropConnect_forward_world (dc : DropConnect.t) (x y : tensor)
    (w w' : world) :
  DropConnect.forward dc x w = OK (y, w') ->
  hooks w' = hooks w /\ stored w' = stored w /\
  rng w' = (rng w + (if DropConnect.training dc then 1 else 0))%nat.
Proof.
  unfold DropConnect.forward. destruct (DropConnect.training dc); cbn [negb].
  - intros H. apply mbind_ok_inv in H. destruct H as (n & w1 & Hn & H).
    apply lift_ok_inv in Hn. destruct Hn as [_ ->].
    apply mbind_ok_inv in H. destruct H as (r & w2 & Hr & H).
    apply lift_ok_inv in H. destruct H as [_ ->].
    unfold rand in Hr. injection Hr as _ <-. cbn [hooks stored rng].
    repeat split. lia.
  - intros [= _ <-]. repeat split. lia.
Qed.

(** X5.  [MBConvBlock.forward] draws one random tensor when the block is
    in training mode and its skip connection is active ([id_skip],
    stride one, [n_inp == n_out]), and none otherwise; it leaves the
    hooks and what they stored alone. *)
Theorem MBConvBlock_random_draws (self : MBConvBlock.t) (x y : tensor)
    (w w' : world) :
  MBConvBlock.forward self x w = OK (y, w') ->
  hooks w' = hooks w /\ stored w' = stored w /\
  rng w' = (rng w +
            (if DropConnect.training (MBConvBlock.drop_conncet self)
                && MBConvBlock.skips self then 1 else 0))%nat.
Proof.
  rewrite forward_decompose.
  destruct (MBConvBlock.skips self); rewrite ?andb_true_r, ?andb_false_r.
  - intros H. apply mbind_ok_inv in H. destruct H as (y1 & w1 & H1 & H).
    apply lift_ok_inv in H1. destruct H1 as [_ ->].
    apply mbind_ok_inv in H. destruct H as (z & w2 & Hz & H).
    apply lift_ok_inv in H. destruct H as [_ ->].
    exact (DropConnect_forward_world _ _ _ _ _ Hz).
  - intros H. apply lift_ok_inv in H. destruct H as [_ ->].
    repeat split. lia.
Qed.

Lemma MBConvBlock_random_draws_witness :
  exists self y w',
    MBConvBlock.init 16 16 (Int 3) (Int 1) (Some (1 # 4)) true 6 (1 # 10)
      (Some SiLU) (Some Batch) = OK self /\
    MBConvBlock.forward self (input [1; 16; 4; 8; 8]) world0 = OK (y, w') /\
    rng w' = 1%nat.
Proof.
  destruct (MBConvBlock.init 16 16 (Int 3) (Int 1) (Some (1 # 4)) true 6
              (1 # 10) (Some SiLU) (Some Batch)) as [self|e] eqn:E;
    [|vm_compute in E; discriminate E].
  destruct (MBConvBlock.forward self (input [1; 16; 4; 8; 8]) world0)
    as [[y w']|e] eqn:F.
  - exists self, y, w'. split; [reflexivity|]. split; [exact F|].
    destruct (MBConvBlock_random_draws self _ y world0 w' F) as (_ & _ & ->).
    vm_compute in E. injection E as <-. reflexivity.
  - vm_compute in E. injection E as <-. vm_compute in F. discriminate F.
Defined.

(** ** EfficientNet in evaluation mode *)

Lemma MBConvBlock_eval_pure (b : MBConvBlock.t) (x : tensor) :
  exists r : result tensor,
    forall w, MBConvBlock.forward (MBConvBlock.train false b) x w = lift r w.
Proof.
  exists (if MBConvBlock.skips b
          then (y <- MBConvBlock.conv_path b x ;; add y x)%py
          else MBConvBlock.conv_path b x).
  intros w. rewrite forward_decompose.
  change (MBConvBlock.skips (MBConvBlock.train false b))
    with (MBConvBlock.skips b).
  rewrite conv_path_train.
  destruct (MBConvBlock.skips b); [|reflexivity].
  unfold mbind at 1.
  destruct (MBConvBlock.conv_path b x) as [y|e]; cbn [lift Py.bind];
    [|reflexivity].
  unfold mbind. rewrite forward_eval by reflexivity. reflexivity.
Qed.

Lemma forward_blocks_eval_pure (bs : list MBConvBlock.t) :
  forall x, exists r : result tensor,
    forall w, EfficientNet.forward_blocks (map (MBConvBlock.train false) bs) x w
              = lift r w.
Proof.
  induction bs as [|b bs IH]; intros x; cbn [map EfficientNet.forward_blocks].
  - exists (OK x). reflexivity.
  - destruct (MBConvBlock_eval_pure b x) as ([y|e] & Hb).
    + destruct (IH y) as (r & Hr). exists r. intros w.
      unfold mbind. rewrite Hb. cbn [lift]. apply Hr.
    + exists (Raise e). intros w. unfold mbind. rewrite Hb. reflexivity.
Qed.

(** X6.  In evaluation mode the forward pass of an [EfficientNet] is a
    function of its input alone: it makes no random draw, touches no
    hook, and gives the same result (or raises the same exception)
    whatever the state of the random generator is. *)
Theorem EfficientNet_eval_is_pure (net : EfficientNet.t) (x : tensor) :
  exists r : result tensor,
    forall w, EfficientNet.forward (EfficientNet.train false net) x w = lift r w.
Proof.
  revert x. induction net as [|l net IH]; intros x;
    cbn [EfficientNet.train map EfficientNet.forward].
  - exists (OK x). reflexivity.
  - assert (Hl : exists r : result tensor, forall w,
               EfficientNet.forward_layer (EfficientNet.train_layer false l) x w
               = lift r w).
    { destruct l as [m|bs]; cbn [EfficientNet.train_layer EfficientNet.forward_layer].
      - exists (call m x). reflexivity.
      - apply forward_blocks_eval_pure. }
    destruct Hl as ([y|e] & Hl).
    + destruct (IH y) as (r & Hr). exists r. intros w.
      unfold mbind. rewrite Hl. cbn [lift]. apply Hr.
    + exists (Raise e). intros w. unfold mbind. rewrite Hl. reflexivity.
Qed.

(** ** get_n_channels: errors and fixed points *)









(** ** The arguments [EfficientNet] accepts *)



Lemma rate_ok_iff (q : Q) :
  Qle_bool 0 q && Qle_bool q 1 = true <-> (0 <= q)%Q /\ (q <= 1)%Q.
Proof. rewrite andb_true_iff, !Qle_bool_iff. reflexivity. Qed.


(** The drop-connect rate of the stage with index [idx]. *)
Lemma stage_rate (a : EfficientNet.args) (idx : Z) :
  (EfficientNet.drop_connect_rate a * inject_Z idx
   / inject_Z (Z.of_nat (length EfficientNet.block_arguments)))%Q
  = (EfficientNet.drop_connect_rate a * inject_Z idx / inject_Z 7)%Q.
Proof. reflexivity. Qed.







Lemma Dropout_init_raise (p : Q) :
  ~ ((0 <= p)%Q /\ (p <= 1)%Q) -> Dropout_init p = Raise ValueError.
Proof.
  intros H. unfold Dropout_init.
  destruct (Qle_bool 0 p && Qle_bool p 1) eqn:E; [|reflexivity].
  apply rate_ok_iff in E. contradiction.
Qed.


(** ** A depth coefficient of zero *)

Lemma conv_block_ext (a a' : EfficientNet.args) (r : EfficientNet.block_args)
    (rate : Q) (n : nat) :
  EfficientNet.act_cls a = EfficientNet.act_cls a' ->
  EfficientNet.norm_type a = EfficientNet.norm_type a' ->
  forall ni nf s,
    EfficientNet.conv_block a r rate n ni nf s
    = EfficientNet.conv_block a' r rate n ni nf s.
Proof.
  intros Ha Hn. induction n as [|n IH]; intros ni nf s; [reflexivity|].
  cbn [EfficientNet.conv_block]. rewrite Ha, Hn, IH. reflexivity.
Qed.

Lemma ceil_one_times (n : Z) : ceil (1 * inject_Z n) = n.
Proof.
  unfold ceil. rewrite (Qceiling_comp _ (inject_Z n)) by ring.
  apply Qceiling_Z.
Qed.

(** X10.  [if depth_coefficient: ...] skips the scaling of the number of
    blocks for a depth coefficient of zero, so [depth_coefficient=0]
    does not build a network without blocks: it builds the network of
    [depth_coefficient=1] (or raises as that one does). *)
Theorem EfficientNet_depth_zero (a : EfficientNet.args) :
  EfficientNet.depth_coefficient a == 0 ->
  EfficientNet.init a = EfficientNet.init (with_depth a 1).
Proof.
  intros Hz.
  assert (Hstage : forall idx r,
            EfficientNet.stage a idx r = EfficientNet.stage (with_depth a 1) idx r).
  { intros idx r. unfold EfficientNet.stage.
    cbn [with_depth EfficientNet.width_coefficient EfficientNet.depth_divisor
         EfficientNet.min_depth EfficientNet.depth_coefficient
         EfficientNet.drop_connect_rate].
    apply Qeq_bool_iff in Hz. rewrite Hz.
    change (Qeq_bool 1 0) with false. cbv iota. rewrite ceil_one_times.
    destruct (get_n_channels (EfficientNet.in_channels r) _ _ _); [|reflexivity].
    destruct (get_n_channels (EfficientNet.out_channels r) _ _ _); [|reflexivity].
    cbn [Py.bind].
    rewrite (conv_block_ext a (with_depth a 1)) by reflexivity. reflexivity. }
  assert (Hstages : forall rows idx,
            EfficientNet.stages a idx rows
            = EfficientNet.stages (with_depth a 1) idx rows).
  { induction rows as [|r rows IH]; intros idx; [reflexivity|].
    cbn [EfficientNet.stages]. rewrite Hstage, IH. reflexivity. }
  unfold EfficientNet.init. rewrite Hstages. reflexivity.
Qed.

Lemma EfficientNet_depth_zero_witness :
  EfficientNet.init (with_depth EfficientNet.default_args 0)
  = EfficientNet.init (with_depth (with_depth EfficientNet.default_args 0) 1).
Proof.
  apply (EfficientNet_depth_zero (with_depth EfficientNet.default_args 0)).
  reflexivity.
Defined.

(** ** The blocks of a stage *)

(** What the loop [for _ in range(num_repeat)] appends: every block gets
    the rate, the kernel size and the output channels of the stage; the
    first one takes the input channels and the stride of the stage, the
    later ones [ni, stride = nf, 1]. *)
Lemma conv_block_inv (a : EfficientNet.args) (r : EfficientNet.block_args)
    (rate : Q) (n : nat) :
  forall ni nf s bs,
    EfficientNet.conv_block a r rate n ni nf s = OK bs ->
    length bs = n /\
    Forall (fun b =>
              MBConvBlock.drop_conncet b
              = {| DropConnect.keep_prob := 1 - rate;
                   DropConnect.training := true |} /\
              MBConvBlock.n_out b = nf /\
              MBConvBlock.kernel_size b = Int (EfficientNet.kernel_size r) /\
              MBConvBlock.expand_ratio b = EfficientNet.expand_ratio r /\
              MBConvBlock.id_skip b = EfficientNet.id_skip r) bs /\
    match bs with
    | [] => True
    | b0 :: rest =>
        MBConvBlock.n_inp b0 = ni /\ MBConvBlock.stride b0 = Int s /\
        Forall (fun b => MBConvBlock.n_inp b = nf /\
                         MBConvBlock.stride b = Int 1) rest
    end.
Proof.
  induction n as [|n IH]; intros ni nf s bs H.
  - injection H as <-. repeat split. constructor.
  - cbn [EfficientNet.conv_block] in H.
    apply bind_ok_inv in H. destruct H as (b & Hb & H).
    apply bind_ok_inv in H. destruct H as (rest & Hrest & H).
    injection H as <-.
    apply IH in Hrest. destruct Hrest as (Hlen & Hall & Hrest).
    pose proof (MBConvBlock_init_fields _ _ _ _ _ _ _ _ _ _ _ Hb)
      as (Fni & Fno & Fks & Fst & _ & Fid & Fex & _ & Fdc & _).
    apply DropConnect_init_inv in Fdc. destruct Fdc as (_ & _ & Fdc).
    split; [cbn [length]; congruence|]. split.
    + constructor; [|exact Hall]. repeat split; assumption.
    + split; [assumption|]. split; [assumption|].
      destruct rest as [|b1 rest]; constructor.
      * destruct Hrest as (H1 & H2 & _). split; assumption.
      * apply Hrest.
Qed.



(** ** The children of the network and the drop-connect schedule *)

Lemma stages_nth (a : EfficientNet.args) (rows : list EfficientNet.block_args) :
  forall idx body,
    EfficientNet.stages a idx rows = OK body ->
    forall (i : nat) (s : Z * EfficientNet.layer),
      nth_error body i = Some s ->
      exists r, nth_error rows i = Some r /\
                EfficientNet.stage a (idx + Z.of_nat i) r = OK s.
Proof.
  induction rows as [|r rows IH]; intros idx body H i s Hi.
  - injection H as <-. destruct i; discriminate.
  - cbn [EfficientNet.stages] in H.
    apply bind_ok_inv in H. destruct H as (s0 & Hs0 & H).
    apply bind_ok_inv in H. destruct H as (rest & Hrest & H).
    injection H as <-. destruct i as [|i]; cbn [nth_error] in *.
    + injection Hi as <-. exists r. rewrite Z.add_0_r. split; [reflexivity|assumption].
    + destruct (IH _ _ Hrest i s Hi) as (r' & Hr' & Hst).
      exists r'. split; [assumption|].
      replace (idx + Z.of_nat (S i)) with (idx + 1 + Z.of_nat i) by lia.
      assumption.
Qed.

Lemma stage_keep_prob (a : EfficientNet.args) (idx : Z)
    (r : EfficientNet.block_args) (nf : Z) (l : EfficientNet.layer) :
  EfficientNet.stage a idx r = OK (nf, l) ->
  exists bs, l = EfficientNet.LStage bs /\
    Forall (fun b => MBConvBlock.drop_conncet b
                     = {| DropConnect.keep_prob :=
                            1 - EfficientNet.drop_connect_rate a * inject_Z idx
                                / inject_Z 7;
                          DropConnect.training := true |}) bs.
Proof.
  unfold EfficientNet.stage. intros H.
  apply bind_ok_inv in H. destruct H as (ni & Hni & H).
  apply bind_ok_inv in H. destruct H as (nf' & Hnf & H).
  apply bind_ok_inv in H. destruct H as (bs & Hbs & H).
  injection H as <- <-. rewrite stage_rate in Hbs.
  apply conv_block_inv in Hbs. destruct Hbs as (_ & Hall & _).
  exists bs. split; [reflexivity|].
  eapply Forall_impl; [|exact Hall]. cbn. tauto.
Qed.

(** X12.  An [EfficientNet] that was built has ten children: the stem,
    one stage for each of the seven rows of [block_arguments], the last
    convolution layer and the head.  All blocks of stage [i] are built
    with the drop-connect rate [drop_connect_rate * i / 7]: the blocks
    of the first stage never drop, and the rate of the last stage is
    [drop_connect_rate * 6 / 7], below the rate that was asked for. *)
Theorem EfficientNet_drop_connect_schedule (a : EfficientNet.args)
    (net : EfficientNet.t) :
  EfficientNet.init a = OK net ->
  exists stem stages final head,
    net = EfficientNet.LModule stem :: map EfficientNet.LStage stages
          ++ [EfficientNet.LModule final; EfficientNet.LModule head] /\
    length stages = 7%nat /\
    (forall (i : nat) bs, nth_error stages i = Some bs ->
       Forall (fun b =>
                 DropConnect.training (MBConvBlock.drop_conncet b) = true /\
                 DropConnect.keep_prob (MBConvBlock.drop_conncet b)
                 = (1 - EfficientNet.drop_connect_rate a
                        * inject_Z (Z.of_nat i) / inject_Z 7)%Q) bs) /\
    (forall bs, nth_error stages 0 = Some bs ->
       Forall (fun b =>
                 DropConnect.keep_prob (MBConvBlock.drop_conncet b) == 1) bs).
Proof.
  unfold EfficientNet.init. intros H.
  apply bind_ok_inv in H. destruct H as (nf_stem & _ & H).
  apply bind_ok_inv in H. destruct H as (stem & _ & H).
  apply bind_ok_inv in H. destruct H as (body & Hbody & H).
  apply bind_ok_inv in H. destruct H as (ni & _ & H).
  apply bind_ok_inv in H. destruct H as (nf & _ & H).
  apply bind_ok_inv in H. destruct H as (final & _ & H).
  apply bind_ok_inv in H. destruct H as (dropout & _ & H).
  injection H as <-.
  (* every entry of the body is a stage of blocks *)
  assert (Hst : forall i s, nth_error body i = Some s ->
            exists bs, snd s = EfficientNet.LStage bs /\
              Forall (fun b => MBConvBlock.drop_conncet b
                     = {| DropConnect.keep_prob :=
                            1 - EfficientNet.drop_connect_rate a
                                * inject_Z (Z.of_nat i) / inject_Z 7;
                          DropConnect.training := true |}) bs).
  { intros i [nf' l] Hi.
    destruct (stages_nth _ _ _ _ Hbody i _ Hi) as (r & _ & Hr).
    apply stage_keep_prob in Hr. exact Hr. }
  pose proof (stages_length _ _ _ _ Hbody) as Hlen.
  set (stages := map (fun s => match snd s with
                               | EfficientNet.LStage bs => bs
                               | EfficientNet.LModule _ => []
                               end) body).
  assert (Hmap : map snd body = map EfficientNet.LStage stages).
  { unfold stages. rewrite map_map. apply nth_error_ext. intros i.
    rewrite !nth_error_map.
    destruct (nth_error body i) as [s|] eqn:E; [|reflexivity].
    cbn [option_map]. destruct (Hst i s E) as (bs & -> & _). reflexivity. }
  exists stem, stages, final,
    (Sequential [ Layer (AdaptiveAvgPool3d 1); Layer Flatten; Layer dropout;
                  Layer (Linear nf (EfficientNet.num_classes a)) ]).
  split; [rewrite Hmap; reflexivity|].
  split; [unfold stages; rewrite length_map; exact Hlen|].
  assert (Hsched : forall (i : nat) bs, nth_error stages i = Some bs ->
            Forall (fun b => MBConvBlock.drop_conncet b
                     = {| DropConnect.keep_prob :=
                            1 - EfficientNet.drop_connect_rate a
                                * inject_Z (Z.of_nat i) / inject_Z 7;
                          DropConnect.training := true |}) bs).
  { intros i bs Hi. unfold stages in Hi. rewrite nth_error_map in Hi.
    destruct (nth_error body i) as [s|] eqn:E; [|discriminate].
    cbn [option_map] in Hi. destruct (Hst i s E) as (bs' & Hs & Hall).
    rewrite Hs in Hi. injection Hi as <-. exact Hall. }
  split.
  - intros i bs Hi. eapply Forall_impl; [|exact (Hsched i bs Hi)].
    cbn. intros b ->. split; reflexivity.
  - intros bs Hi. eapply Forall_impl; [|exact (Hsched 0%nat bs Hi)].
    cbn. intros b ->. cbn [DropConnect.keep_prob].
    change (inject_Z (Z.of_nat 0)) with 0%Q. change (inject_Z 7) with 7%Q.
    field.
Qed.

Lemma EfficientNet_drop_connect_schedule_witness :
  exists net stem stages final head,
    EfficientNet.init EfficientNet.default_args = OK net /\
    net = EfficientNet.LModule stem :: map EfficientNet.LStage stages
          ++ [EfficientNet.LModule final; EfficientNet.LModule head] /\
    length stages = 7%nat.
Proof.
  destruct (EfficientNet.init EfficientNet.default_args) as [net|e] eqn:E;
    [|vm_compute in E; discriminate E].
  destruct (EfficientNet_drop_connect_schedule _ _ E)
    as (stem & stages & final & head & Hnet & Hlen & _).
  exists net, stem, stages, final, head.
  split; [reflexivity|]. split; assumption.
Defined.

(** ** The resolution of the features *)






(** ** The width of the head *)



(** ** ASPP: what it rejects *)

Lemma ASPP_init_raise (ni : Z) (dilations : list Z) (nf : Z)
    (nt : option NormType) (act : option activation) (ps : Q) :
  ~ ((0 <= ps)%Q /\ (ps <= 1)%Q) ->
  ASPP.init ni dilations nf nt act ps = Raise ValueError.
Proof.
  intros H. unfold ASPP.init, ASPPPooling.init.
  rewrite !ConvLayer_pointwise. cbn [Py.bind].
  rewrite (mapM_map _ (fun d => conv3 ni nf 3 d d None nt act)).
  2:{ intros d _. apply ConvLayer_conv3. }
  cbn [Py.bind]. rewrite ConvLayer_pointwise. cbn [Py.bind].
  rewrite Dropout_init_raise by assumption. reflexivity.
Qed.

(** A convolution layer in three dimensions with [ni] input channels
    raises for every input that does not have five axes with [ni]
    channels. *)
Lemma conv3_rejects (ni nf k p dl : Z) (bias : option bool)
    (nt : option NormType) (act : option activation) (x : tensor) :
  (forall b d h w, shape_of x <> [b; ni; d; h; w]) ->
  call (conv3 ni nf k p dl bias nt act) x = Raise RuntimeError.
Proof.
  intros H. unfold conv3. rewrite call_seq_cons.
  cbn [call]. unfold call_prim. cbn [prim_shape].
  destruct (shape_of x) as [|b [|c sp]] eqn:E; try reflexivity.
  destruct (_ && _) eqn:C; [|reflexivity].
  exfalso. rewrite !andb_true_iff in C. destruct C as [[[[Hl Hc] _] _] _].
  apply Nat.eqb_eq in Hl. apply Z.eqb_eq in Hc. subst c.
  destruct sp as [|d [|h [|w [|? ?]]]]; try discriminate Hl.
  exact (H b d h w eq_refl).
Qed.

(** X15.  [ASPP] raises [ValueError] when it is constructed with a
    dropout probability outside [[0, 1]], whatever the dilations are.
    Once constructed, its [forward] raises [RuntimeError] in the first
    convolution for every input that has neither five axes with [ni]
    channels nor four axes of which the first is [ni] (which later
    versions of the framework read as one sample without a batch axis):
    the activations [(b, c, h, w)] of a two-dimensional encoder are
    refused. *)
Theorem ASPP_rejects (ni : Z) (dilations : list Z) (nf : Z)
    (nt : option NormType) (act : option activation) (ps : Q) :
  (~ ((0 <= ps)%Q /\ (ps <= 1)%Q) ->
   ASPP.init ni dilations nf nt act ps = Raise ValueError) /\
  (forall aspp x,
     ASPP.init ni dilations nf nt act ps = OK aspp ->
     (forall b d h w, shape_of x <> [b; ni; d; h; w]) ->
     (forall d h w, shape_of x <> [ni; d; h; w]) ->
     ASPP.forward aspp x = Raise RuntimeError).
Proof.
  split; [apply ASPP_init_raise|].
  intros aspp x Hinit Hx _.
  assert (Hps : (0 <= ps)%Q /\ (ps <= 1)%Q).
  { destruct (Qle_bool 0 ps && Qle_bool ps 1) eqn:E.
    - apply rate_ok_iff. exact E.
    - rewrite ASPP_init_raise in Hinit; [discriminate|].
      intros H. apply rate_ok_iff in H. congruence. }
  destruct Hps as [H0 H1].
  rewrite (ASPP_init_eq _ _ _ _ _ _ H0 H1) in Hinit. injection Hinit as <-.
  unfold ASPP.forward. cbn [ASPP.layers mapM ASPP.call_branch].
  rewrite conv3_rejects by assumption. reflexivity.
Qed.

Lemma ASPP_rejects_witness :
  exists aspp,
    ASPP.init 512 [1; 6; 12; 18] 128 (Some Batch) (Some ReLU) (1 # 2)
      = OK aspp /\
    ASPP.forward aspp (input [1; 512; 2; 2]) = Raise RuntimeError.
Proof.
  destruct (ASPP.init 512 [1; 6; 12; 18] 128 (Some Batch) (Some ReLU) (1 # 2))
    as [aspp|e] eqn:E; [|vm_compute in E; discriminate E].
  exists aspp. split; [reflexivity|].
  apply (proj2 (ASPP_rejects 512 [1; 6; 12; 18] 128 (Some Batch) (Some ReLU)
                  (1 # 2)) aspp (input [1; 512; 2; 2]) E);
    intros; discriminate.
Defined.

(** ** DeepLabDecoder: when [forward] returns *)








(** ** DynamicDeepLab: when the constructor raises *)

Lemma fire_total (p : path) (y : tensor) (w : world) :
  exists w', Hooks.fire p y w = OK (y, w').
Proof. unfold Hooks.fire. destruct (existsb _ _); eexists; reflexivity. Qed.

(** A module of the encoder returns what it returns without hooks. *)
Lemma call_at_value (m : nnModule) :
  forall (p : path) (x : tensor) (w : world),
    match call m x with
    | OK y => exists w', Hooks.call_at p m x w = OK (y, w')
    | Raise e => Hooks.call_at p m x w = Raise e
    end.
Proof.
  induction m as [q|name f|ms IH] using nnModule_nested_ind; intros p x w.
  - cbn [call Hooks.call_at]. unfold mbind, lift.
    destruct (call_prim q x) as [y|e]; [apply fire_total|reflexivity].
  - cbn [call Hooks.call_at]. unfold mbind, lift.
    destruct (call_opaque name f x) as [y|e]; [apply fire_total|reflexivity].
  - cbn [Hooks.call_at].
    assert (Hgo : forall (j : nat) x w,
              match call (Sequential ms) x with
              | OK y => exists w',
                  (fix go (ms : list nnModule) (j : nat) (x : tensor)
                     : M tensor :=
                     match ms with
                     | [] => ret x
                     | m' :: ms' =>
                         (y <- Hooks.call_at (p ++ [j]) m' x ;; go ms' (S j) y)%M
                     end) ms j x w = OK (y, w')
              | Raise e =>
                  (fix go (ms : list nnModule) (j : nat) (x : tensor)
                     : M tensor :=
                     match ms with
                     | [] => ret x
                     | m' :: ms' =>
                         (y <- Hooks.call_at (p ++ [j]) m' x ;; go ms' (S j) y)%M
                     end) ms j x w = Raise e
              end).
    { clear x w. induction IH as [|m ms Hm _ IHms]; intros j x w.
      - rewrite call_seq_nil. exists w. reflexivity.
      - rewrite call_seq_cons. specialize (Hm (p ++ [j]) x w).
        destruct (call m x) as [y|e]; cbn [Py.bind].
        + destruct Hm as (w1 & Hm). unfold mbind. rewrite Hm. apply IHms.
        + unfold mbind. rewrite Hm. reflexivity. }
    specialize (Hgo 0%nat x w).
    destruct (call (Sequential ms) x) as [y|e]; unfold mbind at 1.
    + destruct Hgo as (w1 & ->). apply fire_total.
    + rewrite Hgo. reflexivity.
Qed.

Lemma last_default {A} (l : list A) (a b : A) :
  l <> [] -> List.last l a = List.last l b.
Proof.
  induction l as [|x l IH]; intros H; [contradiction|].
  destruct l as [|y l]; [reflexivity|].
  cbn [List.last] in *. apply IH. discriminate.
Qed.

(** The shapes [model_sizes] collects end with the shape the encoder
    returns. *)
Lemma children_outputs_value (ms : list nnModule) :
  forall (j : nat) (x : tensor) (outs : list tensor) (w w' : world),
    Hooks.children_outputs ms j x w = OK (outs, w') ->
    length outs = length ms /\
    call (Sequential ms) x = OK (List.last outs x).
Proof.
  induction ms as [|m ms IH]; intros j x outs w w' H.
  - injection H as <- <-. split; reflexivity.
  - cbn [Hooks.children_outputs] in H.
    apply mbind_ok_inv in H. destruct H as (y & w1 & H1 & H).
    apply mbind_ok_inv in H. destruct H as (rest & w2 & H2 & H).
    injection H as <- <-.
    apply IH in H2. destruct H2 as [Hlen Hcall].
    split; [cbn [length]; congruence|].
    rewrite call_seq_cons.
    pose proof (call_at_value m [j] x w) as Hv.
    destruct (call m x) as [y'|e].
    + destruct Hv as (w3 & Hv). rewrite Hv in H1. injection H1 as -> _.
      cbn [Py.bind]. rewrite Hcall. f_equal.
      destruct rest as [|r rest]; [reflexivity|].
      change (List.last (y :: r :: rest) x) with (List.last (r :: rest) x).
      apply last_default. discriminate.
    + rewrite Hv in H1. discriminate.
Qed.

Lemma py_last_list_last {A} (l : list A) (a d : A) :
  Py.last l = OK a -> List.last l d = a.
Proof.
  unfold Py.last. intros H.
  destruct (rev l) as [|x t] eqn:E; [discriminate|]. injection H as ->.
  apply (f_equal (@rev A)) in E. rewrite rev_involutive in E. subst l.
  cbn [rev]. apply last_last.
Qed.

Lemma list_last_map {A B} (f : A -> B) (l : list A) (d : A) :
  List.last (map f l) (f d) = f (List.last l d).
Proof.
  induction l as [|x l IH]; [reflexivity|].
  destruct l as [|y l]; [reflexivity|]. exact IH.
Qed.

(** The dummy pass of the constructor returns a tensor of the last shape
    that [model_sizes] found. *)
Lemma dummy_eval_last_size (encoder : Hooks.encoder) (img_size : list Z)
    (w w1 w2 : world) (sizes : list shape) (sz : shape) :
  Hooks.model_sizes encoder img_size w = OK (sizes, w1) ->
  Py.last sizes = OK sz ->
  exists x0 w3, Hooks.dummy_eval encoder img_size w2 = OK (x0, w3) /\
                shape_of x0 = sz.
Proof.
  unfold Hooks.model_sizes. intros H Hl.
  apply mbind_ok_inv in H. destruct H as (outs & w' & Houts & H).
  injection H as <- _.
  apply children_outputs_value in Houts. destruct Houts as [_ Hcall].
  unfold Hooks.dummy_eval, Hooks.call_encoder.
  pose proof (call_at_value (Sequential (Hooks.body encoder)) []
                (Hooks.dummy_batch encoder img_size) w2) as Hv.
  rewrite Hcall in Hv. destruct Hv as (w3 & Hv).
  eexists _, w3. split; [exact Hv|].
  rewrite <- list_last_map. apply py_last_list_last. exact Hl.
Qed.

(** X17.  The constructor of [DynamicDeepLab] raises, whatever the
    encoder is: [IndexError] when the sizes of the dummy pass change at
    fewer than two places, since it takes the second; [TypeError] when
    the layer at the second place is no container, since [hook_outputs]
    iterates over it; [RuntimeError], in the first convolution of
    [ASPP], when the last activation of the dummy pass [(b, c, ...)] does
    not have three spatial axes, as for a two-dimensional encoder. *)
Theorem DynamicDeepLab_init_failures (encoder : Hooks.encoder) (n_out : Z)
    (img_size : list Z) (act : option activation) (nt : option NormType)
    (w w1 : world) (sizes : list shape) (idxs : list nat) :
  Hooks.model_sizes encoder img_size w = OK (sizes, w1) ->
  Hooks._get_sz_change_idxs sizes = OK idxs ->
  ((length idxs < 2)%nat ->
   DynamicDeepLab.init encoder n_out img_size act nt w = Raise IndexError) /\
  (forall i1 m,
     nth_error idxs 1 = Some i1 ->
     nth_error (Hooks.body encoder) i1 = Some m ->
     (forall ms, m <> Sequential ms) ->
     DynamicDeepLab.init encoder n_out img_size act nt w = Raise TypeError) /\
  (forall i1 children b c rest,
     nth_error idxs 1 = Some i1 ->
     nth_error (Hooks.body encoder) i1 = Some (Sequential children) ->
     Py.last sizes = OK (b :: c :: rest) ->
     length rest <> 3%nat -> b <> c ->
     DynamicDeepLab.init encoder n_out img_size act nt w = Raise RuntimeError).
Proof.
  intros Hsizes Hidxs.
  split; [|split].
  - intros Hlen. unfold DynamicDeepLab.init, mbind. rewrite Hsizes.
    rewrite Hidxs. cbn [lift]. unfold index.
    destruct idxs as [|i0 [|i1 idxs]]; cbn [length nth_error] in *;
      [reflexivity|reflexivity|lia].
  - intros i1 m Hi1 Hm Hnot. unfold DynamicDeepLab.init, mbind.
    rewrite Hsizes, Hidxs. cbn [lift]. unfold index at 1.
    rewrite Hi1. cbn [lift]. unfold index at 1. rewrite Hm. cbn [lift].
    unfold Hooks.hook_outputs, mbind, lift, iterate.
    destruct m as [q|name f|ms]; try reflexivity.
    exfalso. exact (Hnot ms eq_refl).
  - intros i1 children b c rest Hi1 Hm Hlast Hrest _.
    unfold DynamicDeepLab.init, mbind.
    rewrite Hsizes, Hidxs. cbn [lift]. unfold index at 1.
    rewrite Hi1. cbn [lift]. unfold index at 1. rewrite Hm. cbn [lift].
    unfold Hooks.hook_outputs at 1. unfold mbind at 1. cbn [lift iterate].
    match goal with
    | |- context [Hooks.dummy_eval encoder img_size ?w2] =>
        destruct (dummy_eval_last_size encoder img_size w w1 w2 sizes _
                    Hsizes Hlast) as (x0 & w3 & Hx0 & Hsh)
    end.
    rewrite Hx0. rewrite Hlast. cbn [Py.bind index nth_error lift].
    rewrite ASPP_init_eq by (unfold Qle; cbn; lia). cbn [lift].
    unfold ASPP.forward. cbn [ASPP.layers mapM ASPP.call_branch].
    rewrite conv3_rejects; [reflexivity|].
    intros b' d h v E. rewrite Hsh in E. injection E as _ ->.
    apply Hrest. reflexivity.
Qed.

Lemma DynamicDeepLab_init_failures_witness :
  DynamicDeepLab.init r3d_18_cut 2 [20; 64; 64] (Some ReLU) (Some Batch) world0
    = Raise IndexError /\
  DynamicDeepLab.init resnet18_body 2 [64; 64] (Some ReLU) (Some Batch) world0
    = Raise RuntimeError.
Proof.
  split.
  - apply (proj1 (DynamicDeepLab_init_failures r3d_18_cut 2 [20; 64; 64]
                    (Some ReLU) (Some Batch) world0 world0
                    [[1; 64; 20; 32; 32]; [1; 64; 20; 32; 32];
                     [1; 128; 10; 16; 16]] [1%nat] eq_refl eq_refl)).
    cbn [length]. lia.
  - apply (proj2 (proj2 (DynamicDeepLab_init_failures resnet18_body 2 [64; 64]
                    (Some ReLU) (Some Batch) world0 world0
                    [[1; 64; 32; 32]; [1; 64; 32; 32]; [1; 64; 32; 32];
                     [1; 64; 16; 16]; [1; 64; 16; 16]; [1; 128; 8; 8];
                     [1; 256; 4; 4]; [1; 512; 2; 2]]
                    [2; 4; 5; 6]%nat eq_refl eq_refl))
             4%nat
             [basic_block2d "layer1.0" 64 64 1; basic_block2d "layer1.1" 64 64 1]
             1 512 [2; 2]);
      try reflexivity; [cbn [length]; lia | lia].
Defined.

(** ** DynamicDeepLab.__del__ *)






(** ** The model functions *)






Example notebook_efficientnet_b0 :
  match snd (efficientnet_b0 (fun _ _ m => OK m) false true
               {| kw_ni := 3; kw_num_classes := 2;
                  kw_drop_connect_rate := 2 # 10; kw_depth_divisor := 8;
                  kw_min_depth := None; kw_act_cls := Some SiLU;
                  kw_norm_type := Some Batch |}) with
  | Returns net =>
      (y <- EfficientNet.forward net (input [1; 3; 10; 224; 224]) ;;
       ret (shape_of y))%M world0
      = OK ([1; 2], {| rng := 9; hooks := []; stored := [] |})
  | _ => False
  end.
Proof. vm_compute. reflexivity. Qed.

(** ** get_n_channels keeps the order of the channel numbers *)





(** ** What a run of the encoder leaves in the hooks *)



















(** ** DynamicDeepLab: when the constructor returns *)












